(** * dexter: chart data normalisation (src/tools/finance/chart.ts)

    A shallow embedding of [normalizeChartData] and [formatDateLabel] over a
    small model of the JavaScript values the functions inspect, followed by
    the properties of the normaliser.

    JavaScript numbers are IEEE-754 binary64 values: they are modelled by the
    kernel's primitive floats.  Strings are modelled by [string] (the code
    only slices, concatenates and parses them). *)

From Stdlib Require Import ZArith List Bool Ascii String.
From Stdlib Require Import Numbers.DecimalString.
From Stdlib Require Import Floats.
From Stdlib Require Import Lia.
Import ListNotations.

Set Warnings "-register-all".
Open Scope string_scope.
Open Scope list_scope.

(** ** JavaScript numbers *)

Module Num.

Local Open Scope string_scope.

Definition number := float.

Definition zero : number := 0%float.

(** The number denoted by the decimal [m * 10^e10] (with sign [neg]), rounded
    to the nearest binary64 value, ties to even: the conversion ECMA-262
    applies to a StrDecimalLiteral. *)
Definition decimal_digits (m : positive) : Z :=
  Z.of_nat (String.length (NilEmpty.string_of_uint (Pos.to_uint m))).

Definition of_decimal (neg : bool) (m : Z) (e10 : Z) : number :=
  match m with
  | Zpos p =>
      let d := decimal_digits p in
      if (310 <=? e10 + d)%Z then (if neg then neg_infinity else infinity)
      else if (e10 + d <=? -324)%Z then (if neg then neg_zero else PrimFloat.zero)
      else if (0 <=? e10)%Z then
        SF2Prim (binary_normalize prec emax
                   (if neg then Z.opp (m * 10 ^ e10) else m * 10 ^ e10)%Z 0%Z false)
      else
        let D := (10 ^ (- e10))%Z in
        let k := Z.max 0 (Z.log2 D + 56 - Z.log2 m)%Z in
        let (q, r) := Z.div_eucl (m * 2 ^ k)%Z D in
        let loc := if (r =? 0)%Z then loc_Exact
                   else loc_Inexact (Z.compare (2 * r) D) in
        SF2Prim (binary_round_aux prec emax neg q (- k)%Z loc)
  | _ => if neg then neg_zero else PrimFloat.zero
  end.

(** [parseFloat]: leading white space is dropped (here the white space and
    line terminators below U+0080), then the longest prefix that is a
    StrDecimalLiteral is converted; [NaN] when there is none. *)
Definition is_white_space (c : ascii) : bool :=
  let n := nat_of_ascii c in
  ((9 <=? n) && (n <=? 13))%nat || (n =? 32)%nat.

Fixpoint skip_white_space (s : string) : string :=
  match s with
  | String c rest => if is_white_space c then skip_white_space rest else s
  | EmptyString => s
  end.

Definition digit_of (c : ascii) : option Z :=
  let n := nat_of_ascii c in
  if ((48 <=? n) && (n <=? 57))%nat then Some (Z.of_nat (n - 48)) else None.

(** The digits at the head of [s], accumulated on [acc]: their value, how many
    were read, and the rest of the string. *)
Fixpoint read_digits (s : string) (acc : Z) (count : Z) : Z * Z * string :=
  match s with
  | String c rest =>
      match digit_of c with
      | Some d => read_digits rest (10 * acc + d)%Z (count + 1)%Z
      | None => (acc, count, s)
      end
  | EmptyString => (acc, count, s)
  end.

Definition read_sign (s : string) : bool * string :=
  match s with
  | String "-" rest => (true, rest)
  | String "+" rest => (false, rest)
  | _ => (false, s)
  end.

(** The ExponentPart at the head of [s], 0 when there is none. *)
Definition read_exponent (s : string) : Z :=
  match s with
  | String c rest =>
      if (Ascii.eqb c "e" || Ascii.eqb c "E")%bool then
        let (eneg, rest') := read_sign rest in
        let '(e, n, _) := read_digits rest' 0%Z 0%Z in
        if (n =? 0)%Z then 0%Z else if eneg then (- e)%Z else e
      else 0%Z
  | EmptyString => 0%Z
  end.

Definition parseFloat (input : string) : number :=
  let (neg, s) := read_sign (skip_white_space input) in
  if String.prefix "Infinity" s then (if neg then neg_infinity else infinity)
  else
    let '(ip, ni, after_int) := read_digits s 0%Z 0%Z in
    let '(m, nf, after_frac) :=
      match after_int with
      | String "." rest => read_digits rest ip 0%Z
      | _ => (ip, 0%Z, after_int)
      end in
    if (ni + nf =? 0)%Z then nan
    else of_decimal neg m (read_exponent after_frac - nf)%Z.

Definition isNaN (x : number) : bool := PrimFloat.is_nan x.

(** [x === 0]: true of both zeros, false of NaN. *)
Definition is_zero (x : number) : bool := PrimFloat.eqb x zero.

(** ** Number::toString (radix 10) *)

Definition string_of_Z (z : Z) : string :=
  NilEmpty.string_of_uint (N.to_uint (Z.to_N z)).

Fixpoint zeros (n : nat) : string :=
  match n with O => "" | S n' => String "0" (zeros n') end.

(** A positive finite number as an exact fraction [num / den]. *)
Definition fraction_of (x : number) : option (Z * Z) :=
  match Prim2SF x with
  | S754_finite _ m e =>
      if (0 <=? e)%Z then Some (Zpos m * 2 ^ e, 1)%Z
      else Some (Zpos m, 2 ^ (- e))%Z
  | _ => None
  end.

(** [num / den * 10^e] as a fraction. *)
Definition scale10 (num den e : Z) : Z * Z :=
  if (0 <=? e)%Z then (num * 10 ^ e, den)%Z else (num, den * 10 ^ (- e))%Z.

(** The least [n], from [n] on, with [num / den < 10^n].  The search starts
    below the decimal logarithm of the fraction, estimated from its binary
    one, and ends within a few steps. *)
Fixpoint magnitude (fuel : nat) (num den n : Z) : Z :=
  match fuel with
  | O => n
  | S fuel' =>
      let (a, b) := scale10 num den (- n) in
      if (a <? b)%Z then n else magnitude fuel' num den (n + 1)%Z
  end.

(** The shortest digit string [s] of [k] digits, [k] from [k] on, with
    [s * 10^(n-k)] rounding to [x]; the closest to [x] when two fit. *)
Fixpoint shortest (fuel : nat) (x : number) (num den n k : Z) : Z * Z :=
  match fuel with
  | O => (0, k)%Z
  | S fuel' =>
      let (a, b) := scale10 num den (k - n) in
      let lo := (a / b)%Z in
      let hi := (lo + 1)%Z in
      let fits s := PrimFloat.eqb (of_decimal false s (n - k)) x in
      match fits lo, fits hi with
      | true, true =>
          match (2 * a ?= (2 * lo + 1) * b)%Z with
          | Lt => (lo, k)
          | Gt => (hi, k)
          | Eq => if Z.even lo then (lo, k) else (hi, k)
          end
      | true, false => (lo, k)
      | false, true => (hi, k)
      | false, false => shortest fuel' x num den n (k + 1)%Z
      end
  end.

Definition format_digits (digits : string) (k n : Z) : string :=
  if ((k <=? n) && (n <=? 21))%Z then digits ++ zeros (Z.to_nat (n - k))
  else if ((0 <? n) && (n <=? 21))%Z then
    substring 0 (Z.to_nat n) digits ++ "."
      ++ substring (Z.to_nat n) (Z.to_nat (k - n)) digits
  else if ((-6 <? n) && (n <=? 0))%Z then
    "0." ++ zeros (Z.to_nat (- n)) ++ digits
  else
    let e := (n - 1)%Z in
    let exponent := (if (e <? 0)%Z then "e-" else "e+") ++ string_of_Z (Z.abs e) in
    if (k =? 1)%Z then digits ++ exponent
    else substring 0 1 digits ++ "."
           ++ substring 1 (Z.to_nat (k - 1)) digits ++ exponent.

Definition toString_positive (x : number) : string :=
  match fraction_of x with
  | Some (num, den) =>
      let below := ((Z.log2 num - Z.log2 den - 1) * 30103 / 100000 - 2)%Z in
      let n := magnitude 8 num den below in
      let (s, k) := shortest 17 x num den n 1%Z in
      if (s =? 10 ^ k)%Z then format_digits "1" 1 (n + 1)
      else format_digits (string_of_Z s) k n
  | None => "NaN"
  end.

Definition toString (x : number) : string :=
  if PrimFloat.is_nan x then "NaN"
  else if PrimFloat.eqb x zero then "0"
  else if PrimFloat.ltb x zero then
    (if PrimFloat.is_infinity x then "-Infinity"
     else "-" ++ toString_positive (PrimFloat.opp x))
  else if PrimFloat.is_infinity x then "Infinity"
  else toString_positive x.

End Num.

(** ** JavaScript values *)

Module JS.

Local Open Scope string_scope.

(** The values [normalizeChartData] can tell apart: the JSON data of a tool
    call, [undefined], and the non-finite numbers.  An object is the list of
    its own enumerable properties in the order they were created; its keys
    are distinct. *)
Inductive value : Type :=
  | VUndefined
  | VNull
  | VBoolean (b : bool)
  | VNumber (n : Num.number)
  | VString (s : string)
  | VArray (items : list value)
  | VObject (props : list (string * value)).

Inductive type_name : Type :=
  | Tundefined | Tobject | Tboolean | Tnumber | Tstring.

Definition type_name_eqb (a b : type_name) : bool :=
  match a, b with
  | Tundefined, Tundefined | Tobject, Tobject | Tboolean, Tboolean
  | Tnumber, Tnumber | Tstring, Tstring => true
  | _, _ => false
  end.

Definition typeof (v : value) : type_name :=
  match v with
  | VUndefined => Tundefined
  | VNull => Tobject
  | VBoolean _ => Tboolean
  | VNumber _ => Tnumber
  | VString _ => Tstring
  | VArray _ => Tobject
  | VObject _ => Tobject
  end.

(** ToBoolean: [!v] is [negb (ToBoolean v)]. *)
Definition ToBoolean (v : value) : bool :=
  match v with
  | VUndefined | VNull => false
  | VBoolean b => b
  | VNumber n => negb (Num.isNaN n || Num.is_zero n)
  | VString s => negb (String.eqb s "")
  | VArray _ | VObject _ => true
  end.

Definition isArray (v : value) : bool :=
  match v with VArray _ => true | _ => false end.

Definition is_null (v : value) : bool :=
  match v with VNull => true | _ => false end.

Inductive exn : Type :=
  | Error (message : string)
  | TypeError (message : string).

Inductive completion (A : Type) : Type :=
  | Return (a : A)
  | Throw (e : exn).
Arguments Return {A} a.
Arguments Throw {A} e.

Definition try_catch {A : Type} (body : completion A) (handler : exn -> A) : A :=
  match body with
  | Return a => a
  | Throw e => handler e
  end.

(** Whether an object has an own property [key]. *)
Definition has_own_property (props : list (string * value)) (key : string)
    : bool :=
  existsb (fun p => String.eqb (fst p) key) props.

(** What ToPrimitive throws when neither [toString] nor [valueOf] gives a
    primitive value. *)
Definition conversion_error : exn :=
  TypeError "Cannot convert object to primitive value".

(** [String(v)], and the conversion of a template literal.  An array joins
    the strings of its elements with commas, [null] and [undefined] elements
    giving the empty string.  An object is converted by its [toString]
    method: the inherited one gives "[object Object]"; an own property
    [toString] hides it, and since no value of the model is a function and
    the inherited [valueOf] returns the object itself, the conversion
    throws. *)
Fixpoint ToString (v : value) : completion string :=
  match v with
  | VUndefined => Return "undefined"
  | VNull => Return "null"
  | VBoolean b => Return (if b then "true" else "false")
  | VNumber n => Return (Num.toString n)
  | VString s => Return s
  | VArray items =>
      let element x :=
        match x with
        | VUndefined | VNull => Return ""
        | _ => ToString x
        end in
      (fix join (l : list value) : completion string :=
         match l with
         | [] => Return ""
         | [x] => element x
         | x :: rest =>
             match element x with
             | Throw e => Throw e
             | Return s =>
                 match join rest with
                 | Throw e => Throw e
                 | Return t => Return (s ++ "," ++ t)
                 end
             end
         end) items
  | VObject props =>
      if has_own_property props "toString" then Throw conversion_error
      else Return "[object Object]"
  end.

Definition string_of_nat (n : nat) : string :=
  NilEmpty.string_of_uint (Nat.to_uint n).

(** An array index: the canonical decimal string of an integer below
    [2^32 - 1]. *)
Definition array_index (key : string) : option Z :=
  let '(n, count, rest) := Num.read_digits key 0%Z 0%Z in
  if (String.eqb rest "" && String.eqb (Num.string_of_Z n) key
      && (n <? 2 ^ 32 - 1)%Z)%bool
  then Some n else None.

(** OrdinaryOwnPropertyKeys: the array-index keys in ascending numeric order,
    then the other keys in the order of their creation. *)
Fixpoint insert_index (k : Z) (p : string * value)
    (l : list (Z * (string * value))) : list (Z * (string * value)) :=
  match l with
  | [] => [(k, p)]
  | (k', p') :: rest =>
      if (k <? k')%Z then (k, p) :: l else (k', p') :: insert_index k p rest
  end.

Fixpoint own_properties (props : list (string * value))
    (indexed : list (Z * (string * value))) (named : list (string * value))
    : list (string * value) :=
  match props with
  | [] => map snd indexed ++ named
  | p :: rest =>
      match array_index (fst p) with
      | Some k => own_properties rest (insert_index k p indexed) named
      | None => own_properties rest indexed (named ++ [p])
      end
  end.

Definition own_entries (props : list (string * value)) : list (string * value) :=
  own_properties props [] [].

Fixpoint indexed_from {A : Type} (i : nat) (l : list A) : list (string * A) :=
  match l with
  | [] => []
  | x :: rest => (string_of_nat i, x) :: indexed_from (S i) rest
  end.

Fixpoint characters (s : string) : list value :=
  match s with
  | EmptyString => []
  | String c rest => VString (String c EmptyString) :: characters rest
  end.

(** [Object.entries(v)]: the own enumerable string-keyed properties of
    ToObject(v), which throws on [null] and [undefined]. *)
Definition Object_entries (v : value) : completion (list (string * value)) :=
  match v with
  | VUndefined | VNull =>
      Throw (TypeError "Cannot convert undefined or null to object")
  | VBoolean _ | VNumber _ => Return []
  | VString s => Return (indexed_from 0 (characters s))
  | VArray items => Return (indexed_from 0 items)
  | VObject props => Return (own_entries props)
  end.

Fixpoint lookup (key : string) (props : list (string * value)) : value :=
  match props with
  | [] => VUndefined
  | (k, v) :: rest => if String.eqb k key then v else lookup key rest
  end.

(** [obj.key] for a key that is neither inherited nor an accessor: the
    functions below read data properties of objects and arrays only. *)
Definition get (obj : value) (key : string) : value :=
  match obj with
  | VObject props => lookup key props
  | VArray items =>
      match array_index key with
      | Some i => nth (Z.to_nat i) items VUndefined
      | None =>
          if String.eqb key "length"
          then VNumber (PrimFloat.of_uint63 (Uint63.of_Z (Z.of_nat (List.length items))))
          else VUndefined
      end
  | _ => VUndefined
  end.

(** The tests [typeof v === 'number'] and [typeof v === 'string'], with the
    number or string that [v] is when the test holds. *)
Definition as_number (v : value) : option Num.number :=
  match v with VNumber n => Some n | _ => None end.

Definition as_string (v : value) : option string :=
  match v with VString s => Some s | _ => None end.

(** [x || 0] on numbers. *)
Definition or_zero (x : Num.number) : Num.number :=
  if ToBoolean (VNumber x) then x else Num.zero.

End JS.

(** ** Dates *)

Module JSDate.

Local Open Scope string_scope.
Local Open Scope Z_scope.

(** A Date object holds a time value: milliseconds since the epoch, or NaN
    (here [None]) for an invalid date. *)
Definition Date := option Z.

Definition msPerDay : Z := 86400000.

Definition Day (t : Z) : Z := t / msPerDay.

(** Year, month (1 to 12) and day of the month of a day number, in the
    proleptic Gregorian calendar. *)
Definition civil_from_days (days : Z) : Z * Z * Z :=
  let z := days + 719468 in
  let era := z / 146097 in
  let doe := z - era * 146097 in
  let yoe := (doe - doe / 1460 + doe / 36524 - doe / 146096) / 365 in
  let doy := doe - (365 * yoe + yoe / 4 - yoe / 100) in
  let mp := (5 * doy + 2) / 153 in
  let d := doy - (153 * mp + 2) / 5 + 1 in
  let m := if mp <? 10 then mp + 3 else mp - 9 in
  (if m <=? 2 then yoe + era * 400 + 1 else yoe + era * 400, m, d).

Definition days_from_civil (y m d : Z) : Z :=
  let y' := if m <=? 2 then y - 1 else y in
  let era := y' / 400 in
  let yoe := y' - era * 400 in
  let doy := (153 * (if 2 <? m then m - 3 else m + 9) + 2) / 5 + d - 1 in
  let doe := yoe * 365 + yoe / 4 - yoe / 100 + doy in
  era * 146097 + doe - 719468.

(** MonthFromTime (0 to 11) and DateFromTime (1 to 31). *)
Definition MonthFromTime (t : Z) : Z :=
  let '(_, m, _) := civil_from_days (Day t) in m - 1.

Definition DateFromTime (t : Z) : Z :=
  let '(_, _, d) := civil_from_days (Day t) in d.

(** The abbreviated month names of the en-US locale. *)
Definition month_short (m : Z) : string :=
  nth (Z.to_nat m)
    ["Jan"; "Feb"; "Mar"; "Apr"; "May"; "Jun";
     "Jul"; "Aug"; "Sep"; "Oct"; "Nov"; "Dec"]%list "".

Section Host.

(** What the host decides: [Date.parse] (only the ISO format is fixed by
    the language) and the offset of the local time zone at a time. *)
Variable Date_parse : string -> Date.
Variable LocalTZA : Z -> Z.

Definition LocalTime (t : Z) : Z := t + LocalTZA t.

(** [new Date(dateStr)] for a string argument. *)
Definition new_Date (dateStr : string) : Date := Date_parse dateStr.

(** [date.toLocaleDateString('en-US', { month: 'short' })]. *)
Definition toLocaleDateString_month_short (date : Date) : string :=
  match date with
  | None => "Invalid Date"
  | Some t => month_short (MonthFromTime (LocalTime t))
  end.

(** [date.getDate()]. *)
Definition getDate (date : Date) : Num.number :=
  match date with
  | None => nan
  | Some t => PrimFloat.of_uint63 (Uint63.of_Z (DateFromTime (LocalTime t)))
  end.

End Host.

(** A host for examples: UTC as the local time zone, and a parser of the
    date-only ISO form [YYYY-MM-DD] (read as UTC midnight) that rejects every
    other string. *)
Definition LocalTZA_utc (t : Z) : Z := 0.

Definition days_in_month (y m : Z) : Z :=
  if m =? 2 then
    (if ((y mod 4 =? 0) && negb (y mod 100 =? 0) || (y mod 400 =? 0))%bool
     then 29 else 28)
  else if ((m =? 4) || (m =? 6) || (m =? 9) || (m =? 11))%bool then 30 else 31.

Definition Date_parse_iso (s : string) : Date :=
  let '(y, ny, r1) := Num.read_digits s 0 0 in
  match r1 with
  | String "-" r2 =>
      let '(m, nm, r3) := Num.read_digits r2 0 0 in
      match r3 with
      | String "-" r4 =>
          let '(d, nd, r5) := Num.read_digits r4 0 0 in
          if ((ny =? 4) && (nm =? 2) && (nd =? 2) && String.eqb r5 ""
              && (1 <=? m) && (m <=? 12) && (1 <=? d)
              && (d <=? days_in_month y m))%bool
          then Some (days_from_civil y m d * msPerDay)
          else None
      | _ => None
      end
  | _ => None
  end.

End JSDate.

(** ** src/tools/finance/chart.ts *)

Module Chart.

Import JS.
Local Open Scope string_scope.

Record ChartDataPoint : Type := mkChartDataPoint {
  value : Num.number;
  label : option string;
  date : option string;
  open : option Num.number;
  high : option Num.number;
  low : option Num.number;
  close : option Num.number
}.

(** The object literal [{ value, label }]. *)
Definition value_label (v : Num.number) (l : string) : ChartDataPoint :=
  mkChartDataPoint v (Some l) None None None None None.

(** [result.push(p)]. *)
Definition push (result : list ChartDataPoint) (p : ChartDataPoint)
    : list ChartDataPoint :=
  (result ++ [p])%list.

(** [dateStr.slice(0, 10)]. *)
Definition slice_0_10 (dateStr : string) : string := substring 0 10 dateStr.

(** How a statement of the function's body ends: control goes on to the next
    statement with the array [result], or the function returns, or throws. *)
Inductive outcome : Type :=
  | Next (result : list ChartDataPoint)
  | Returns (result : list ChartDataPoint)
  | Throws (e : exn).

Section Host.

Variable Date_parse : string -> JSDate.Date.
Variable LocalTZA : Z -> Z.

Definition formatDateLabel (dateStr : string) : string :=
  try_catch
    (let date := JSDate.new_Date Date_parse dateStr in
     Return (JSDate.toLocaleDateString_month_short LocalTZA date ++ " "
             ++ Num.toString (JSDate.getDate LocalTZA date)))
    (fun _ => slice_0_10 dateStr).

(** [typeof value === 'number' ? value : parseFloat(String(value))]. *)
Definition numeric (v : JS.value) : completion Num.number :=
  match v with
  | VNumber n => Return n
  | _ =>
      match ToString v with
      | Throw e => Throw e
      | Return s => Return (Num.parseFloat s)
      end
  end.

(** The loops over the entries of an object (lines 96-101 and 110-115): one
    turn, and the loop, which an exception leaves. *)
Definition push_entry (result : list ChartDataPoint) (entry : string * JS.value)
    : completion (list ChartDataPoint) :=
  let (key, v) := entry in
  match numeric v with
  | Throw e => Throw e
  | Return num =>
      Return (if negb (Num.isNaN num) then push result (value_label num key)
              else result)
  end.

Fixpoint push_entries (entries : list (string * JS.value))
    (result : list ChartDataPoint) : completion (list ChartDataPoint) :=
  match entries with
  | [] => Return result
  | entry :: rest =>
      match push_entry result entry with
      | Throw e => Throw e
      | Return result => push_entries rest result
      end
  end.

(** Lines 95-103: the first value is a number or a numeric string. *)
Definition flat_map_format (firstValue : JS.value)
    (entries : list (string * JS.value)) (result : list ChartDataPoint)
    : outcome :=
  if match firstValue with
     | VNumber _ => true
     | VString s => negb (Num.isNaN (Num.parseFloat s))
     | _ => false
     end
  then
    match push_entries entries result with
    | Throw e => Throws e
    | Return result =>
        if (0 <? List.length result)%nat then Returns result else Next result
    end
  else Next result.

(** Lines 106-117: the first value is an object that is not an array. *)
Definition nested_map_format (firstValue : JS.value)
    (entries : list (string * JS.value)) (result : list ChartDataPoint)
    : outcome :=
  if ToBoolean firstValue && type_name_eqb (typeof firstValue) Tobject
     && negb (isArray firstValue)
  then
    let latestPeriod := last entries ("", VUndefined) in
    let segments := snd latestPeriod in
    match Object_entries segments with
    | Throw e => Throws e
    | Return segment_entries =>
        match push_entries segment_entries result with
        | Throw e => Throws e
        | Return result =>
            if (0 <? List.length result)%nat then Returns result
            else Next result
        end
    end
  else Next result.

(** Lines 87-119: the object format. *)
Definition object_format (data : JS.value) (result : list ChartDataPoint)
    : outcome :=
  if type_name_eqb (typeof data) Tobject && negb (isArray data)
     && negb (is_null data)
  then
    match Object_entries data with
    | Throw e => Throws e
    | Return entries =>
        match entries with
        | [] => Next result
        | first :: _ =>
            let firstValue := snd first in
            match flat_map_format firstValue entries result with
            | Next result => nested_map_format firstValue entries result
            | finished => finished
            end
        end
    end
  else Next result.

(** Lines 138-144: the value of an array element that is an object. *)
Definition item_value (obj : JS.value) : Num.number :=
  match as_number (get obj "value") with
  | Some n => n
  | None =>
  match as_string (get obj "value") with
  | Some s => or_zero (Num.parseFloat s)
  | None =>
  match as_number (get obj "net_income") with
  | Some n => n
  | None =>
  match as_number (get obj "total_revenue") with
  | Some n => n
  | None =>
  match as_number (get obj "revenue") with
  | Some n => n
  | None =>
  match as_number (get obj "close") with
  | Some n => n
  | None => Num.zero
  end end end end end end.

(** Line 146: the condition under which the element is skipped. *)
Definition item_skipped (obj : JS.value) (v : Num.number) : bool :=
  Num.is_zero v && negb (ToBoolean (get obj "value"))
  && negb (ToBoolean (get obj "net_income"))
  && negb (ToBoolean (get obj "total_revenue"))
  && negb (ToBoolean (get obj "revenue"))
  && negb (ToBoolean (get obj "close")).

(** Lines 152-159. *)
Definition item_label (obj : JS.value) : option string :=
  match as_string (get obj "label") with
  | Some s => Some s
  | None =>
  match as_string (get obj "report_period") with
  | Some s => Some (formatDateLabel s)
  | None =>
  match as_string (get obj "date") with
  | Some s => Some (formatDateLabel s)
  | None =>
  match as_number (get obj "fiscal_year"), as_number (get obj "quarter") with
  | Some fiscal_year, Some quarter =>
      Some ("Q" ++ Num.toString quarter ++ " " ++ Num.toString fiscal_year)
  | _, _ =>
  match as_number (get obj "year"), as_number (get obj "quarter") with
  | Some year, Some quarter =>
      Some ("Q" ++ Num.toString quarter ++ " " ++ Num.toString year)
  | _, _ =>
  match as_number (get obj "fiscal_year") with
  | Some fiscal_year => Some (Num.toString fiscal_year)
  | None =>
  match as_number (get obj "year") with
  | Some year => Some (Num.toString year)
  | None => None
  end end end end end end end.

(** Lines 160-162. *)
Definition item_date (obj : JS.value) : option string :=
  match as_string (get obj "date") with
  | Some s => Some s
  | None =>
  match as_string (get obj "report_period") with
  | Some s => Some s
  | None => None
  end end.

(** Lines 163-166: a number, a parsed string, or undefined. *)
Definition number_field (obj : JS.value) (key : string) : option Num.number :=
  match as_number (get obj key) with
  | Some n => Some n
  | None =>
  match as_string (get obj key) with
  | Some s => Some (Num.parseFloat s)
  | None => None
  end end.

(** Lines 127-168: one turn of the loop over the array, at index [i]. *)
Definition array_item (item : JS.value) (i : nat)
    (result : list ChartDataPoint) : list ChartDataPoint :=
  match item with
  | VNumber n => push result (value_label n ("Point " ++ string_of_nat (i + 1)))
  | VString s =>
      let num := Num.parseFloat s in
      if negb (Num.isNaN num)
      then push result (value_label num ("Point " ++ string_of_nat (i + 1)))
      else result
  | _ =>
      if ToBoolean item && type_name_eqb (typeof item) Tobject then
        let obj := item in
        let v := item_value obj in
        if item_skipped obj v then result
        else
          push result
            {| value := v;
               label := item_label obj;
               date := item_date obj;
               open := number_field obj "open";
               high := number_field obj "high";
               low := number_field obj "low";
               close := number_field obj "close" |}
      else result
  end.

(** [for (let i = ...; i < data.length; i++)], from index [i] on. *)
Fixpoint array_loop (items : list JS.value) (i : nat)
    (result : list ChartDataPoint) : list ChartDataPoint :=
  match items with
  | [] => result
  | item :: rest => array_loop rest (S i) (array_item item i result)
  end.

Definition normalizeChartData (data : JS.value)
    : completion (list ChartDataPoint) :=
  if negb (ToBoolean data) then Throw (Error "Data is required")
  else
    let result := [] in
    match object_format data result with
    | Throws e => Throw e
    | Returns result => Return result
    | Next result =>
        match data with
        | VArray items =>
            if (List.length items =? 0)%nat then
              Throw (Error "Data must be a non-empty array or object with numeric values")
            else
              let result := array_loop items 0 result in
              if (List.length result =? 0)%nat then
                Throw (Error "No valid numeric data found in input")
              else Return result
        | _ =>
            Throw (Error "Data must be a non-empty array or object with numeric values")
        end
    end.

End Host.

End Chart.

(** ** Definitions used to state the properties *)

Module Props.

Import JS Chart.
Local Open Scope string_scope.

(** The example host: UTC, ISO dates only. *)
Definition normalize_utc : JS.value -> completion (list ChartDataPoint) :=
  normalizeChartData JSDate.Date_parse_iso JSDate.LocalTZA_utc.

Definition formatDateLabel_utc : string -> string :=
  formatDateLabel JSDate.Date_parse_iso JSDate.LocalTZA_utc.

(** [Number.isFinite]. *)
Definition isFinite (x : Num.number) : bool :=
  negb (PrimFloat.is_nan x || PrimFloat.is_infinity x).

(** The values [String(v)] converts without an exception: all but an
    object with an own property [toString], and an array with an element, at
    any depth of arrays, that is such an object. *)
Fixpoint convertible (v : JS.value) : bool :=
  match v with
  | VArray items => forallb convertible items
  | VObject props => negb (has_own_property props "toString")
  | _ => true
  end.

(** The string of a value that converts. *)
Fixpoint text (v : JS.value) : string :=
  match v with
  | VUndefined => "undefined"
  | VNull => "null"
  | VBoolean b => if b then "true" else "false"
  | VNumber n => Num.toString n
  | VString s => s
  | VArray items =>
      let element x :=
        match x with
        | VUndefined | VNull => ""
        | _ => text x
        end in
      (fix join (l : list JS.value) : string :=
         match l with
         | [] => ""
         | [x] => element x
         | x :: rest => element x ++ "," ++ join rest
         end) items
  | VObject _ => "[object Object]"
  end.

(** The number an entry's value stands for: itself, or what [parseFloat]
    reads in its string. *)
Definition entry_number (v : JS.value) : Num.number :=
  match v with
  | VNumber n => n
  | _ => Num.parseFloat (text v)
  end.

(** The entries whose values all convert. *)
Definition entries_convertible (entries : list (string * JS.value)) : bool :=
  forallb (fun entry => convertible (snd entry)) entries.

(** The Observations an entry list yields, said without the accumulator: each
    entry whose value is a number, or parses as one, gives one Observation
    labelled by its key. *)
Definition entry_points (entry : string * JS.value) : list ChartDataPoint :=
  if Num.isNaN (entry_number (snd entry)) then []
  else [value_label (entry_number (snd entry)) (fst entry)].

Definition collect (entries : list (string * JS.value)) : list ChartDataPoint :=
  flat_map entry_points entries.

(** The Observations of an array of numbers, numbered from [i]. *)
Fixpoint points_from (i : nat) (xs : list Num.number) : list ChartDataPoint :=
  match xs with
  | [] => []
  | x :: rest =>
      value_label x ("Point " ++ string_of_nat i) :: points_from (S i) rest
  end.

(** The number an array element that is a number or a string stands for. *)
Definition element_number (item : JS.value) : option Num.number :=
  match item with
  | VNumber n => Some n
  | VString s =>
      if Num.isNaN (Num.parseFloat s) then None else Some (Num.parseFloat s)
  | _ => None
  end.

(** The fallback chain as an ordered list of accessors: the first key of
    [keys] under which [obj] holds a number. *)
Fixpoint first_number (obj : JS.value) (keys : list string) : option Num.number :=
  match keys with
  | [] => None
  | key :: rest =>
      match as_number (get obj key) with
      | Some n => Some n
      | None => first_number obj rest
      end
  end.

Definition chain_value (obj : JS.value) : Num.number :=
  match as_number (get obj "value"), as_string (get obj "value") with
  | Some n, _ => n
  | None, Some s => or_zero (Num.parseFloat s)
  | None, None =>
      match first_number obj ["net_income"; "total_revenue"; "revenue"; "close"] with
      | Some n => n
      | None => Num.zero
      end
  end.

(** No NaN number where an array element's value is copied from. *)
Definition number_fields_not_nan (obj : JS.value) : bool :=
  forallb
    (fun key =>
       match as_number (get obj key) with
       | Some n => negb (Num.isNaN n)
       | None => true
       end)
    ["value"; "net_income"; "total_revenue"; "revenue"; "close"].

Definition element_not_nan (item : JS.value) : bool :=
  match item with
  | VNumber n => negb (Num.isNaN n)
  | VString _ => true
  | _ => number_fields_not_nan item
  end.

Definition input_not_nan (data : JS.value) : bool :=
  match data with
  | VArray items => forallb element_not_nan items
  | _ => true
  end.

(** An Observation as the JavaScript object the renderer, or the normaliser
    again, receives; a field that is undefined reads like an absent one. *)
Definition optional {A : Type} (key : string) (inj : A -> JS.value)
    (field : option A) : list (string * JS.value) :=
  match field with
  | Some a => [(key, inj a)]
  | None => []
  end.

Definition to_value (p : ChartDataPoint) : JS.value :=
  VObject
    ([("value", VNumber (value p))]
     ++ optional "label" VString (label p)
     ++ optional "date" VString (date p)
     ++ optional "open" VNumber (open p)
     ++ optional "high" VNumber (high p)
     ++ optional "low" VNumber (low p)
     ++ optional "close" VNumber (close p))%list.

Definition to_array (points : list ChartDataPoint) : JS.value :=
  VArray (map to_value points).

(** [item && typeof item === 'object']. *)
Definition is_object (item : JS.value) : bool :=
  ToBoolean item && type_name_eqb (typeof item) Tobject.

(** The Observation pushed for an object element whose value is [v]. *)
Definition object_point (Date_parse : string -> JSDate.Date) (LocalTZA : Z -> Z)
    (obj : JS.value) (v : Num.number) : ChartDataPoint :=
  {| value := v;
     label := item_label Date_parse LocalTZA obj;
     date := item_date obj;
     open := number_field obj "open";
     high := number_field obj "high";
     low := number_field obj "low";
     close := number_field obj "close" |}.

Definition required : exn := Error "Data is required".
Definition not_a_series : exn :=
  Error "Data must be a non-empty array or object with numeric values".
Definition nothing_numeric : exn := Error "No valid numeric data found in input".

End Props.

(** ** Further definitions for the normaliser *)

Module Shapes.

Import JS Chart Props.
Local Open Scope string_scope.

(** The test of line 95 on the first value of an object. *)
Definition first_is_numeric (firstValue : JS.value) : bool :=
  match firstValue with
  | VNumber _ => true
  | VString s => negb (Num.isNaN (Num.parseFloat s))
  | _ => false
  end.

(** An object of number-valued properties, from its keys and numbers. *)
Definition number_map (entries : list (string * Num.number)) : JS.value :=
  VObject (map (fun entry => (fst entry, VNumber (snd entry))) entries).

(** An Observation given back to the normaliser is kept unless its value is
    a zero and its [close] is missing, a zero or NaN. *)
Definition kept_again (p : ChartDataPoint) : bool :=
  negb (Num.is_zero (value p)
        && negb match close p with
                | Some c => ToBoolean (VNumber c)
                | None => false
                end).

(** What it comes back as: itself, with a label made from its date when it
    had a date and no label. *)
Definition seen_again (Date_parse : string -> JSDate.Date) (LocalTZA : Z -> Z)
    (p : ChartDataPoint) : ChartDataPoint :=
  match label p, date p with
  | None, Some d =>
      {| value := value p;
         label := Some (formatDateLabel Date_parse LocalTZA d);
         date := date p;
         open := open p;
         high := high p;
         low := low p;
         close := close p |}
  | _, _ => p
  end.

End Shapes.

(** ** src/utils/chart-generator.ts: the name of the chart file *)

Module Generator.

Import JS.
Local Open Scope string_scope.

(** [toLowerCase] and the class [[a-z0-9]], on the characters below U+0080. *)
Definition lower (c : ascii) : ascii :=
  let n := nat_of_ascii c in
  if ((65 <=? n) && (n <=? 90))%nat then ascii_of_nat (n + 32) else c.

Fixpoint toLowerCase (s : string) : string :=
  match s with
  | EmptyString => EmptyString
  | String c rest => String (lower c) (toLowerCase rest)
  end.

Definition is_lower_alnum (c : ascii) : bool :=
  let n := nat_of_ascii c in
  ((97 <=? n) && (n <=? 122))%nat || ((48 <=? n) && (n <=? 57))%nat.

(** [s.replace(/[^a-z0-9]+/g, '_')]: every maximal run of other characters
    becomes one underscore; [in_run] says that the character before was
    part of such a run. *)
Fixpoint replace_runs (s : string) (in_run : bool) : string :=
  match s with
  | EmptyString => EmptyString
  | String c rest =>
      if is_lower_alnum c then String c (replace_runs rest false)
      else if in_run then replace_runs rest true
      else String "_" (replace_runs rest true)
  end.

(** [options.title || 'chart'], the title being a string or undefined. *)
Definition title_or_chart (title : option string) : string :=
  match title with
  | Some t => if String.eqb t "" then "chart" else t
  | None => "chart"
  end.

(** Line 256. *)
Definition safeTitle (title : option string) : string :=
  substring 0 30 (replace_runs (toLowerCase (title_or_chart title)) false).

(** The digits of an integer, as a template literal prints a number that is
    an integer below [10^21] in absolute value. *)
Definition integer_string (t : Z) : string :=
  if (t <? 0)%Z then "-" ++ Num.string_of_Z (Z.abs t) else Num.string_of_Z t.

(** Line 257, [timestamp] being what [Date.now()] returned. *)
Definition default_filename (title : option string) (timestamp : Z) : string :=
  safeTitle title ++ "_" ++ integer_string timestamp ++ ".html".

(** The characters of the names the function makes up. *)
Definition is_name_char (c : ascii) : bool :=
  is_lower_alnum c || Ascii.eqb c "_" || Ascii.eqb c ".".

End Generator.

(** ** Conversions of values *)

Module Coerce.

Import JS.
Local Open Scope string_scope.

Fixpoint reverse (s acc : string) : string :=
  match s with
  | EmptyString => acc
  | String c rest => reverse rest (String c acc)
  end.

(** White space dropped at both ends. *)
Definition trim (s : string) : string :=
  reverse (Num.skip_white_space (reverse (Num.skip_white_space s) "")) "".

Definition radix_digit (radix : Z) (c : ascii) : option Z :=
  let n := Z.of_nat (nat_of_ascii c) in
  let d := if ((48 <=? n) && (n <=? 57))%Z then (n - 48)%Z
           else if ((97 <=? n) && (n <=? 102))%Z then (n - 87)%Z
           else if ((65 <=? n) && (n <=? 70))%Z then (n - 55)%Z
           else 16%Z in
  if (d <? radix)%Z then Some d else None.

(** The digits of [s] in base [radix], [s] holding nothing else. *)
Fixpoint radix_value (radix : Z) (s : string) (acc : Z) : option Z :=
  match s with
  | EmptyString => Some acc
  | String c rest =>
      match radix_digit radix c with
      | Some d => radix_value radix rest (radix * acc + d)%Z
      | None => None
      end
  end.

Definition integer_literal (radix : Z) (digits : string) : Num.number :=
  match digits with
  | EmptyString => nan
  | _ =>
      match radix_value radix digits 0%Z with
      | Some n => SF2Prim (binary_normalize prec emax n 0%Z false)
      | None => nan
      end
  end.

(** An ExponentPart, or nothing, up to the end of the string. *)
Definition exponent_to_end (s : string) : option Z :=
  match s with
  | EmptyString => Some 0%Z
  | String c rest =>
      if (Ascii.eqb c "e" || Ascii.eqb c "E")%bool then
        let (eneg, rest') := Num.read_sign rest in
        let '(e, n, tail) := Num.read_digits rest' 0%Z 0%Z in
        if ((0 <? n)%Z && String.eqb tail "")%bool
        then Some (if eneg then (- e)%Z else e)
        else None
      else None
  end.

Definition decimal_literal (s : string) : Num.number :=
  let (neg, body) := Num.read_sign s in
  if String.eqb body "Infinity" then (if neg then neg_infinity else infinity)
  else
    let '(ip, ni, after_int) := Num.read_digits body 0%Z 0%Z in
    let '(m, nf, after_frac) :=
      match after_int with
      | String "." rest => Num.read_digits rest ip 0%Z
      | _ => (ip, 0%Z, after_int)
      end in
    if (ni + nf =? 0)%Z then nan
    else
      match exponent_to_end after_frac with
      | Some e => Num.of_decimal neg m (e - nf)%Z
      | None => nan
      end.

(** StringToNumber: the whole string, white space at its ends apart, has to
    be a numeric literal; the empty string is 0. *)
Definition StringToNumber (input : string) : Num.number :=
  let s := trim input in
  match s with
  | EmptyString => Num.zero
  | String "0" (String c digits) =>
      if (Ascii.eqb c "x" || Ascii.eqb c "X")%bool then integer_literal 16 digits
      else if (Ascii.eqb c "o" || Ascii.eqb c "O")%bool then integer_literal 8 digits
      else if (Ascii.eqb c "b" || Ascii.eqb c "B")%bool then integer_literal 2 digits
      else decimal_literal s
  | _ => decimal_literal s
  end.

(** ToNumber; an array or object is first turned into a primitive value,
    which for the values of the model is its string. *)
Definition ToNumber (v : value) : completion Num.number :=
  match v with
  | VUndefined => Return nan
  | VNull => Return Num.zero
  | VBoolean b => Return (if b then 1%float else Num.zero)
  | VNumber n => Return n
  | VString s => Return (StringToNumber s)
  | VArray _ | VObject _ =>
      match ToString v with
      | Throw e => Throw e
      | Return s => Return (StringToNumber s)
      end
  end.

(** The global [isNaN(v)]. *)
Definition isNaN (v : value) : completion bool :=
  match ToNumber v with
  | Throw e => Throw e
  | Return n => Return (Num.isNaN n)
  end.

Definition is_undefined (v : value) : bool :=
  match v with VUndefined => true | _ => false end.

Definition is_nullish (v : value) : bool :=
  match v with VUndefined | VNull => true | _ => false end.

(** [a || b]. *)
Definition or_else (a b : value) : value := if ToBoolean a then a else b.

(** [v[key]] for a [v] that is neither [null] nor [undefined], and a key that
    is not inherited from a prototype: an own property of an object, an
    element or the length of an array or string. *)
Definition own (v : value) (key : string) : value :=
  match v with
  | VString s =>
      match array_index key with
      | Some i => nth (Z.to_nat i) (characters s) VUndefined
      | None =>
          if String.eqb key "length"
          then VNumber (PrimFloat.of_uint63 (Uint63.of_Z (Z.of_nat (String.length s))))
          else VUndefined
      end
  | _ => get v key
  end.

(** [v[key]], which throws on [null] and [undefined]. *)
Definition member (v : value) (key : string) : completion value :=
  if is_nullish v then Throw (TypeError "Cannot read properties of undefined or null")
  else Return (own v key).

(** The integer part of a number, none for NaN and the infinities. *)
Definition truncate (x : Num.number) : option Z :=
  match Prim2SF x with
  | S754_zero _ => Some 0%Z
  | S754_finite s m e =>
      let magnitude := if (0 <=? e)%Z then (Zpos m * 2 ^ e)%Z
                       else (Zpos m / 2 ^ (- e))%Z in
      Some (if s then (- magnitude)%Z else magnitude)
  | _ => None
  end.

(** TimeClip. *)
Definition TimeClip (x : Num.number) : JSDate.Date :=
  match truncate x with
  | Some t => if (Z.abs t <=? 8640000000000000)%Z then Some t else None
  | None => None
  end.

End Coerce.

(** ** src/tools/finance/chart.ts: the converters of prices and metrics *)

Module Convert.

Import JS Coerce.
Local Open Scope string_scope.

(** The objects the two converters push.  The casts of lines 31, 34, 50 and
    53 convert nothing: [value], [label] and [date] hold what the properties
    and [formatDateLabel] gave, of whatever type. *)
Record DataPoint : Type := mkDataPoint {
  point_value : JS.value;
  point_label : JS.value;
  point_date : JS.value
}.

(** [dateStr.slice(0, 10)] on a value of any type: a string and an array have
    the method, the other values have none to call. *)
Definition slice_0_10_of (dateStr : JS.value) : completion JS.value :=
  match dateStr with
  | VString s => Return (VString (Chart.slice_0_10 s))
  | VArray items => Return (VArray (firstn 10 items))
  | VUndefined | VNull =>
      Throw (TypeError "Cannot read properties of undefined or null")
  | _ => Throw (TypeError "dateStr.slice is not a function")
  end.

(** A template literal [Q${quarter} ${year}]. *)
Definition template_Q (quarter year : JS.value) : completion JS.value :=
  match ToString quarter with
  | Throw e => Throw e
  | Return q =>
      match ToString year with
      | Throw e => Throw e
      | Return y => Return (VString ("Q" ++ q ++ " " ++ y))
      end
  end.

Section Host.

Variable Date_parse : string -> JSDate.Date.
Variable LocalTZA : Z -> Z.

(** [new Date(v)] for any value: an array or object is first turned into a
    primitive value, its string; a string is parsed, anything else is taken
    as a number of milliseconds. *)
Definition new_Date (v : JS.value) : completion JSDate.Date :=
  match v with
  | VString s => Return (Date_parse s)
  | VArray _ | VObject _ =>
      match ToString v with
      | Throw e => Throw e
      | Return s => Return (Date_parse s)
      end
  | _ =>
      match ToNumber v with
      | Throw e => Throw e
      | Return n => Return (TimeClip n)
      end
  end.

(** [formatDateLabel] (lines 16-23) on a value of any type: the casts of
    lines 34 and 53 let any truthy value through.  The [catch] runs when
    [new Date] throws. *)
Definition formatDateLabel_of (dateStr : JS.value) : completion JS.value :=
  match
    match new_Date dateStr with
    | Throw e => Throw e
    | Return date =>
        Return (VString
                  (JSDate.toLocaleDateString_month_short LocalTZA date ++ " "
                   ++ Num.toString (JSDate.getDate LocalTZA date)))
    end
  with
  | Return label => Return label
  | Throw _ => slice_0_10_of dateStr
  end.

(** Lines 30-39: one turn of the loop of [pricesToChartData]. *)
Definition price_turn (valueField : string) (price : JS.value)
    (chartData : list DataPoint) : completion (list DataPoint) :=
  let p := price in
  match member p valueField with
  | Throw e => Throw e
  | Return value =>
      match (if is_undefined value then Return true else isNaN value) with
      | Throw e => Throw e
      | Return true => Return chartData
      | Return false =>
          let date := or_else (or_else (own p "date") (own p "timestamp"))
                        (VString "") in
          match (if ToBoolean date then formatDateLabel_of date
                 else Return VUndefined) with
          | Throw e => Throw e
          | Return label =>
              Return (chartData
                      ++ [{| point_value := value;
                             point_label := label;
                             point_date := date |}])%list
          end
      end
  end.

Fixpoint prices_loop (valueField : string) (prices : list JS.value)
    (chartData : list DataPoint) : completion (list DataPoint) :=
  match prices with
  | [] => Return chartData
  | price :: rest =>
      match price_turn valueField price chartData with
      | Throw e => Throw e
      | Return chartData => prices_loop valueField rest chartData
      end
  end.

(** [valueField] is [None] when the argument is left out or undefined. *)
Definition pricesToChartData (prices : JS.value) (valueField : option string)
    : completion (list DataPoint) :=
  let valueField := match valueField with Some f => f | None => "close" end in
  match prices with
  | VArray items => prices_loop valueField items []
  | _ => Return []
  end.

(** Lines 54-64; [label] is undefined when no branch assigns it. *)
Definition metric_label (m date : JS.value) : completion JS.value :=
  if ToBoolean date then formatDateLabel_of date
  else if ToBoolean (own m "fiscal_year") && ToBoolean (own m "quarter") then
    template_Q (own m "quarter") (own m "fiscal_year")
  else if ToBoolean (own m "year") && ToBoolean (own m "quarter") then
    template_Q (own m "quarter") (own m "year")
  else if ToBoolean (own m "fiscal_year") || ToBoolean (own m "year") then
    match ToString (or_else (own m "fiscal_year") (own m "year")) with
    | Throw e => Throw e
    | Return s => Return (VString s)
    end
  else Return VUndefined.

(** Lines 49-66: one turn of the loop of [metricsToChartData]. *)
Definition metric_turn (metricField : string) (metric : JS.value)
    (chartData : list DataPoint) : completion (list DataPoint) :=
  let m := metric in
  match member m metricField with
  | Throw e => Throw e
  | Return value =>
      match (if is_undefined value then Return true else isNaN value) with
      | Throw e => Throw e
      | Return true => Return chartData
      | Return false =>
          let date := or_else (or_else (own m "report_period") (own m "date"))
                        (VString "") in
          match metric_label m date with
          | Throw e => Throw e
          | Return label =>
              Return (chartData
                      ++ [{| point_value := value;
                             point_label := label;
                             point_date := or_else date VUndefined |}])%list
          end
      end
  end.

Fixpoint metrics_loop (metricField : string) (metrics : list JS.value)
    (chartData : list DataPoint) : completion (list DataPoint) :=
  match metrics with
  | [] => Return chartData
  | metric :: rest =>
      match metric_turn metricField metric chartData with
      | Throw e => Throw e
      | Return chartData => metrics_loop metricField rest chartData
      end
  end.

Definition metricsToChartData (metrics : JS.value) (metricField : string)
    : completion (list DataPoint) :=
  match metrics with
  | VArray items => metrics_loop metricField items []
  | _ => Return []
  end.

End Host.

(** *** Said without the accumulator and the exceptions *)

(** ToNumber of a value that converts. *)
Definition number_of (v : JS.value) : Num.number :=
  match v with
  | VUndefined => nan
  | VNull => Num.zero
  | VBoolean b => if b then 1%float else Num.zero
  | VNumber n => n
  | VString s => StringToNumber s
  | VArray _ | VObject _ => StringToNumber (Props.text v)
  end.

(** The element holds, under [field], something other than undefined that
    is not NaN as a number. *)
Definition has_number (v : JS.value) (field : string) : bool :=
  negb (is_undefined (own v field) || Num.isNaN (number_of (own v field))).

Definition price_date (p : JS.value) : JS.value :=
  or_else (or_else (own p "date") (own p "timestamp")) (VString "").

Definition metric_date (m : JS.value) : JS.value :=
  or_else (or_else (own m "report_period") (own m "date")) (VString "").

(** The date a value that converts stands for. *)
Definition date_of (Date_parse : string -> JSDate.Date) (v : JS.value)
    : JSDate.Date :=
  match v with
  | VString s => Date_parse s
  | VArray _ | VObject _ => Date_parse (Props.text v)
  | _ => TimeClip (number_of v)
  end.

(** The label of a date: its month and day when the value converts; the
    first ten elements of an array that does not convert. *)
Definition date_label (Date_parse : string -> JSDate.Date) (LocalTZA : Z -> Z)
    (v : JS.value) : JS.value :=
  if Props.convertible v then
    let date := date_of Date_parse v in
    VString (JSDate.toLocaleDateString_month_short LocalTZA date ++ " "
             ++ Num.toString (JSDate.getDate LocalTZA date))
  else
    match v with
    | VArray items => VArray (firstn 10 items)
    | _ => VUndefined
    end.

(** The dates [formatDateLabel] fails on: an object with an own [toString]
    is not converted by [new Date] and has no [slice] for the [catch]. *)
Definition date_raises (date : JS.value) : bool :=
  match date with
  | VObject props => has_own_property props "toString"
  | _ => false
  end.

(** The elements [pricesToChartData] fails on: [null] and [undefined], an
    element whose field does not convert to a number, and an element that is
    kept and whose date is one of the above. *)
Definition price_raises (valueField : string) (price : JS.value) : bool :=
  is_nullish price
  || negb (Props.convertible (own price valueField))
  || (has_number price valueField && date_raises (price_date price)).

Definition price_point (Date_parse : string -> JSDate.Date) (LocalTZA : Z -> Z)
    (valueField : string) (price : JS.value) : DataPoint :=
  {| point_value := own price valueField;
     point_label := if ToBoolean (price_date price)
                    then date_label Date_parse LocalTZA (price_date price)
                    else VUndefined;
     point_date := price_date price |}.

(** The label of a metric whose fields convert. *)
Definition metric_text (Date_parse : string -> JSDate.Date) (LocalTZA : Z -> Z)
    (m : JS.value) : JS.value :=
  if ToBoolean (metric_date m) then date_label Date_parse LocalTZA (metric_date m)
  else if ToBoolean (own m "fiscal_year") && ToBoolean (own m "quarter") then
    VString ("Q" ++ Props.text (own m "quarter") ++ " "
             ++ Props.text (own m "fiscal_year"))
  else if ToBoolean (own m "year") && ToBoolean (own m "quarter") then
    VString ("Q" ++ Props.text (own m "quarter") ++ " "
             ++ Props.text (own m "year"))
  else if ToBoolean (own m "fiscal_year") || ToBoolean (own m "year") then
    VString (Props.text (or_else (own m "fiscal_year") (own m "year")))
  else VUndefined.

(** The metrics whose label fails: a date as above, or a year or quarter
    that does not convert to a string where it is printed. *)
Definition label_raises (m : JS.value) : bool :=
  if ToBoolean (metric_date m) then date_raises (metric_date m)
  else if ToBoolean (own m "fiscal_year") && ToBoolean (own m "quarter") then
    negb (Props.convertible (own m "quarter")
          && Props.convertible (own m "fiscal_year"))
  else if ToBoolean (own m "year") && ToBoolean (own m "quarter") then
    negb (Props.convertible (own m "quarter")
          && Props.convertible (own m "year"))
  else if ToBoolean (own m "fiscal_year") || ToBoolean (own m "year") then
    negb (Props.convertible (or_else (own m "fiscal_year") (own m "year")))
  else false.

Definition metric_raises (metricField : string) (metric : JS.value) : bool :=
  is_nullish metric
  || negb (Props.convertible (own metric metricField))
  || (has_number metric metricField && label_raises metric).

Definition metric_point (Date_parse : string -> JSDate.Date) (LocalTZA : Z -> Z)
    (metricField : string) (metric : JS.value) : DataPoint :=
  {| point_value := own metric metricField;
     point_label := metric_text Date_parse LocalTZA metric;
     point_date := or_else (metric_date metric) VUndefined |}.

(** The field [pricesToChartData] reads. *)
Definition field_or_close (valueField : option string) : string :=
  match valueField with Some f => f | None => "close" end.

(** A price bar as the API gives it: an object with a [close] that is a
    number other than NaN and zero, a [date] that is a non-empty string, and
    none of the fields [normalizeChartData] would read before them. *)
Definition is_bar (price : JS.value) : bool :=
  match price with
  | VObject _ =>
      match as_number (get price "close"), as_string (get price "date") with
      | Some c, Some d =>
          negb (Num.isNaN c) && negb (Num.is_zero c) && negb (String.eqb d "")
          && forallb (fun key => is_undefined (get price key))
               ["value"; "net_income"; "total_revenue"; "revenue"; "label";
                "report_period"]
      | _, _ => false
      end
  | _ => false
  end.

(** The value, label and date of an Observation, as a point. *)
Definition summary (p : Chart.ChartDataPoint) : DataPoint :=
  {| point_value := VNumber (Chart.value p);
     point_label := match Chart.label p with
                    | Some l => VString l
                    | None => VUndefined
                    end;
     point_date := match Chart.date p with
                   | Some d => VString d
                   | None => VString ""
                   end |}.

Definition pricesToChartData_utc :=
  pricesToChartData JSDate.Date_parse_iso JSDate.LocalTZA_utc.

Definition metricsToChartData_utc :=
  metricsToChartData JSDate.Date_parse_iso JSDate.LocalTZA_utc.

End Convert.

(** ** src/utils/chart-generator.ts: the data of the chart *)

Set Warnings "-inexact-float".

Module Config.

Import JS Chart.
Local Open Scope string_scope.

Record ChartOptions : Type := mkChartOptions {
  data : list ChartDataPoint;
  title : option string;
  type : option string;
  xLabel : option string;
  yLabel : option string
}.

Definition colors : list string :=
  ["rgba(54, 162, 235, 0.6)"; "rgba(255, 99, 132, 0.6)"; "rgba(75, 192, 192, 0.6)";
   "rgba(255, 206, 86, 0.6)"; "rgba(153, 102, 255, 0.6)"; "rgba(255, 159, 64, 0.6)"]%list.

(** [s.replace(pattern, replacement)] for a string pattern: the first
    occurrence only. *)
Fixpoint replace_first (pattern replacement s : string) : string :=
  if String.prefix pattern s
  then replacement ++ substring (String.length pattern) (String.length s) s
  else
    match s with
    | EmptyString => EmptyString
    | String c rest => String c (replace_first pattern replacement rest)
    end.

(** [a ?? b] where [a] is a number or undefined. *)
Definition number_or (a : option Num.number) (b : JS.value) : JS.value :=
  match a with
  | Some n => VNumber n
  | None => b
  end.

(** [values[i]], a number or, past the end, undefined; and [values[i] * k],
    undefined being NaN as a number. *)
Definition at_index (values : list Num.number) (i : nat) : JS.value :=
  match nth_error values i with
  | Some v => VNumber v
  | None => VUndefined
  end.

Definition times (v : JS.value) (k : Num.number) : JS.value :=
  VNumber (PrimFloat.mul (match v with VNumber n => n | _ => nan end) k).

Record ohlc : Type := mkOhlc { o : JS.value; h : JS.value; l : JS.value; c : JS.value }.

(** Lines 32-37, from index [i] on. *)
Fixpoint ohlcData (data : list ChartDataPoint) (values : list Num.number)
    (i : nat) : list ohlc :=
  match data with
  | [] => []
  | d :: rest =>
      {| o := number_or (open d) (times (at_index values i) 0.99%float);
         h := number_or (high d) (times (at_index values i) 1.01%float);
         l := number_or (low d) (times (at_index values i) 0.98%float);
         c := number_or (close d) (at_index values i) |}
      :: ohlcData rest values (S i)
  end%list.

(** Line 98, from index [i] on. *)
Fixpoint scatter_points (values : list Num.number) (i : nat) : list JS.value :=
  match values with
  | [] => []
  | v :: rest =>
      VObject [("x", VNumber (PrimFloat.of_uint63 (Uint63.of_Z (Z.of_nat i))));
               ("y", VNumber v)]
      :: scatter_points rest (S i)
  end%list.

Definition strings (l : list string) : JS.value := VArray (map VString l).
Definition numbers (l : list Num.number) : JS.value := VArray (map VNumber l).

Definition getChartConfig (type : string) (values : list Num.number)
    (labels : list string) (yLabel : string) (data : list ChartDataPoint)
    : JS.value :=
  if String.eqb type "candlestick" then
    let ohlcData := ohlcData data values 0 in
    VObject
      [("labels", strings labels);
       ("datasets",
        VArray
          [VObject [("label", VString "High");
                    ("data", VArray (map h ohlcData));
                    ("backgroundColor", VString "rgba(75, 192, 192, 0.3)");
                    ("borderColor", VString "rgba(75, 192, 192, 1)")];
           VObject [("label", VString "Open");
                    ("data", VArray (map o ohlcData));
                    ("backgroundColor", VString "rgba(54, 162, 235, 0.5)");
                    ("borderColor", VString "rgba(54, 162, 235, 1)")];
           VObject [("label", VString "Close");
                    ("data", VArray (map c ohlcData));
                    ("backgroundColor", VString "rgba(255, 206, 86, 0.5)");
                    ("borderColor", VString "rgba(255, 206, 86, 1)")];
           VObject [("label", VString "Low");
                    ("data", VArray (map l ohlcData));
                    ("backgroundColor", VString "rgba(255, 99, 132, 0.3)");
                    ("borderColor", VString "rgba(255, 99, 132, 1)")]])]%list
  else if String.eqb type "pie" || String.eqb type "doughnut" then
    VObject
      [("labels", strings labels);
       ("datasets",
        VArray
          [VObject
             [("label", VString yLabel);
              ("data", numbers values);
              ("backgroundColor", strings (firstn (List.length values) colors));
              ("borderColor",
               strings (map (replace_first "0.6" "1")
                          (firstn (List.length values) colors)));
              ("borderWidth", VNumber 2%float)]])]%list
  else if String.eqb type "radar" then
    VObject
      [("labels", strings labels);
       ("datasets",
        VArray
          [VObject
             [("label", VString yLabel);
              ("data", numbers values);
              ("backgroundColor", VString "rgba(54, 162, 235, 0.2)");
              ("borderColor", VString "rgba(54, 162, 235, 1)");
              ("borderWidth", VNumber 2%float);
              ("pointBackgroundColor", VString "rgba(54, 162, 235, 1)");
              ("pointBorderColor", VString "#fff");
              ("pointHoverBackgroundColor", VString "#fff");
              ("pointHoverBorderColor", VString "rgba(54, 162, 235, 1)")]])]%list
  else if String.eqb type "scatter" then
    VObject
      [("datasets",
        VArray
          [VObject
             [("label", VString yLabel);
              ("data", VArray (scatter_points values 0));
              ("backgroundColor", VString "rgba(54, 162, 235, 0.6)");
              ("borderColor", VString "rgba(54, 162, 235, 1)");
              ("borderWidth", VNumber 2%float)]])]%list
  else
    let bgColor :=
      if String.eqb type "bar" then "rgba(54, 162, 235, 0.6)"
      else if String.eqb type "area" then "rgba(54, 162, 235, 0.3)"
      else "rgba(54, 162, 235, 0.2)" in
    VObject
      [("labels", strings labels);
       ("datasets",
        VArray
          [VObject
             [("label", VString yLabel);
              ("data", numbers values);
              ("backgroundColor", VString bgColor);
              ("borderColor", VString "rgba(54, 162, 235, 1)");
              ("borderWidth", VNumber 2%float);
              ("fill", VBoolean (String.eqb type "area" || String.eqb type "line"));
              ("tension",
               VNumber (if String.eqb type "line" || String.eqb type "area"
                        then 0.4%float else 0%float))]])]%list.

(** [a || b] on strings that may be undefined, and [d.label || d.date || '']. *)
Definition string_or (a : option string) (b : string) : string :=
  match a with
  | Some s => if String.eqb s "" then b else s
  | None => b
  end.

Definition point_text (d : ChartDataPoint) : string :=
  string_or (label d) (string_or (date d) "").

(** Lines 187-190 of [generateChartHTML]: the data given to the chart. *)
Definition chartData (options : ChartOptions) : JS.value :=
  let type := match type options with Some t => t | None => "line" end in
  let yLabel := match yLabel options with Some y => y | None => "Value" end in
  let labels := map point_text (data options) in
  let values := map value (data options) in
  getChartConfig type values labels yLabel (data options).

(** Line 193. *)
Definition chartType (options : ChartOptions) : string :=
  let type := match type options with Some t => t | None => "line" end in
  if String.eqb type "candlestick" then "bar" else type.

(** The datasets of a configuration, and the data of a dataset. *)
Definition datasets (config : JS.value) : list JS.value :=
  match get config "datasets" with
  | VArray l => l
  | _ => []
  end.

Definition dataset_data (dataset : JS.value) : list JS.value :=
  match get dataset "data" with
  | VArray l => l
  | _ => []
  end.

Definition dataset_strings (dataset : JS.value) (key : string) : list JS.value :=
  match get dataset key with
  | VArray l => l
  | _ => []
  end.

End Config.

Set Warnings "+inexact-float".

(** ** src/utils/chart-generator.ts: amounts *)

Module Amount.

Local Open Scope string_scope.

(** The last [n] characters of [s], and [s] without them. *)
Definition drop_last (n : nat) (s : string) : string :=
  substring 0 (String.length s - n) s.

Definition take_last (n : nat) (s : string) : string :=
  substring (String.length s - n) n s.

(** [x.toFixed(2)]: NaN and the numbers from [10^21] on print as [String(x)];
    the others as the integer nearest to [100 * x], the larger of two equally
    near, with a point before its last two digits. *)
Definition toFixed2 (x : Num.number) : string :=
  if PrimFloat.is_nan x then "NaN"
  else if PrimFloat.leb 1e21%float (PrimFloat.abs x) then Num.toString x
  else
    let sign := if PrimFloat.ltb x 0%float then "-" else "" in
    let n :=
      match Num.fraction_of (PrimFloat.abs x) with
      | Some (num, den) => ((200 * num + den) / (2 * den))%Z
      | None => 0%Z
      end in
    let digits := Num.string_of_Z n in
    let padded := Num.zeros (3 - String.length digits) ++ digits in
    sign ++ drop_last 2 padded ++ "." ++ take_last 2 padded.

(** Lines 17-23. *)
Definition formatValue (value : Num.number) : string :=
  if PrimFloat.leb 1e12%float value
  then "$" ++ toFixed2 (value / 1e12)%float ++ "T"
  else if PrimFloat.leb 1e9%float value
  then "$" ++ toFixed2 (value / 1e9)%float ++ "B"
  else if PrimFloat.leb 1e6%float value
  then "$" ++ toFixed2 (value / 1e6)%float ++ "M"
  else if PrimFloat.leb 1e3%float value
  then "$" ++ toFixed2 (value / 1e3)%float ++ "K"
  else "$" ++ toFixed2 value.

End Amount.

(** ** Properties *)

Import JS Chart Props.

Arguments Num.parseFloat : simpl never.
Arguments Num.toString : simpl never.
Arguments Num.isNaN : simpl never.
Arguments Num.is_zero : simpl never.
Arguments JS.string_of_nat : simpl never.
Arguments JS.array_index : simpl never.
Arguments JS.get : simpl never.
Arguments Chart.item_skipped : simpl never.
Arguments Chart.item_value : simpl never.
Arguments Chart.item_label : simpl never.
Arguments Chart.item_date : simpl never.
Arguments Chart.number_field : simpl never.
Arguments Props.collect : simpl never.

(** *** The built-in conversions on examples *)

Example parseFloat_examples :
  map Num.parseFloat
    ["200"; "  -12.5e2xyz"; "1.5"; ".5"; "5."; "1e"; "0x10"; "1,2";
     "Infinity"; "-Infinity"; "1e999"]
  = [200; -1250; 1.5; 0.5; 5; 1; 0; 1; infinity; neg_infinity; infinity]%float
  /\ forallb Num.isNaN
       (map Num.parseFloat
          ["abc"; ""; "."; "e5"; "+"; "true"; "null"; "undefined"; "NaN";
           "[object Object]"; "infinity"; "$5"])
     = true.
Proof. split; vm_compute; reflexivity. Qed.

Example toString_examples :
  map Num.toString
    [0; -0; 1.5; 100; 2024; -2.5; 1 / 10; 1 / 3; 1e21; 1e20; 1 / 1e7;
     1 / 1000000; nan; infinity; neg_infinity]%float
  = ["0"; "0"; "1.5"; "100"; "2024"; "-2.5"; "0.1"; "0.3333333333333333";
     "1e+21"; "100000000000000000000"; "1e-7"; "0.000001"; "NaN"; "Infinity";
     "-Infinity"].
Proof. vm_compute. reflexivity. Qed.

Example ToString_examples :
  map ToString
    [VUndefined; VNull; VBoolean true; VString "a b"; VObject [("a", VNull)];
     VArray []; VArray [VNumber 5%float];
     VArray [VNumber 1%float; VNull; VArray [VString "x"; VUndefined]]]
  = map Return
      ["undefined"; "null"; "true"; "a b"; "[object Object]"; ""; "5"; "1,,x,"]
  /\ map ToString
       [VObject [("toString", VNumber 1%float)];
        VObject [("a", VNull); ("toString", VUndefined)];
        VArray [VNumber 1%float; VArray [VObject [("toString", VNull)]]]]
     = [Throw conversion_error; Throw conversion_error; Throw conversion_error].
Proof. split; vm_compute; reflexivity. Qed.

Example own_entries_example :
  map fst
    (own_entries
       [("b", VNull); ("10", VNull); ("2", VNull); ("01", VNull); ("a", VNull);
        ("0", VNull); ("-1", VNull); ("1.5", VNull)])
  = ["0"; "2"; "10"; "b"; "01"; "a"; "-1"; "1.5"].
Proof. vm_compute. reflexivity. Qed.

(** *** Conversions that throw *)

Lemma value_array_ind (P : JS.value -> Prop) :
  P VUndefined -> P VNull -> (forall b, P (VBoolean b)) ->
  (forall n, P (VNumber n)) -> (forall s, P (VString s)) ->
  (forall items, Forall P items -> P (VArray items)) ->
  (forall props, P (VObject props)) ->
  forall v, P v.
Proof.
  intros Hundefined Hnull Hboolean Hnumber Hstring Harray Hobject.
  fix IH 1.
  intros [| |b|n|s|items|props];
    [exact Hundefined | exact Hnull | apply Hboolean | apply Hnumber
     | apply Hstring | | apply Hobject].
  apply Harray. induction items as [|x rest IHitems]; constructor;
    [apply IH | exact IHitems].
Qed.

(** [String(v)] gives the string of a value that converts, and throws on
    the others. *)
Lemma ToString_text (v : JS.value) :
  ToString v = if convertible v then Return (text v) else Throw conversion_error.
Proof.
  induction v as [| |b|n|s|items Hitems|props] using value_array_ind;
    try reflexivity.
  - cbn [ToString convertible text].
    induction Hitems as [|x rest Hx Hrest IH]; [reflexivity|].
    cbn [forallb].
    assert (Helement :
      match x with
      | VUndefined | VNull => Return ""
      | _ => ToString x
      end
      = if convertible x
        then Return match x with
                    | VUndefined | VNull => ""
                    | _ => text x
                    end
        else Throw conversion_error).
    { destruct x; try reflexivity; exact Hx. }
    destruct rest as [|y rest].
    + rewrite Helement. destruct (convertible x); reflexivity.
    + rewrite Helement, IH.
      destruct (convertible x); [|reflexivity].
      cbn [andb]. destruct (forallb convertible (y :: rest)); reflexivity.
  - cbn [ToString convertible text].
    destruct (has_own_property props "toString"); reflexivity.
Qed.

Lemma numeric_entry_number (v : JS.value) :
  numeric v
  = if convertible v then Return (entry_number v) else Throw conversion_error.
Proof.
  destruct v as [| |b|n|s|items|props]; try reflexivity;
    unfold numeric, entry_number; rewrite ToString_text;
    match goal with |- context [convertible ?x] => destruct (convertible x) end;
    reflexivity.
Qed.

Arguments JS.ToString : simpl never.

(** *** The loops, without their accumulator *)

Lemma push_entry_app (result : list ChartDataPoint) (entry : string * JS.value) :
  push_entry result entry
  = if convertible (snd entry) then Return (result ++ entry_points entry)
    else Throw conversion_error.
Proof.
  destruct entry as [key v]. unfold push_entry, entry_points, push.
  rewrite numeric_entry_number. cbn [fst snd].
  destruct (convertible v); [|reflexivity].
  destruct (Num.isNaN (entry_number v)); cbn [negb].
  - now rewrite app_nil_r.
  - reflexivity.
Qed.

(** The loop throws when an entry does not convert, whatever was pushed
    before it. *)
Lemma push_entries_collect (entries : list (string * JS.value)) :
  forall result,
    push_entries entries result
    = if entries_convertible entries then Return (result ++ collect entries)
      else Throw conversion_error.
Proof.
  unfold entries_convertible, collect.
  induction entries as [|entry rest IH]; intros result;
    cbn [push_entries forallb flat_map].
  - now rewrite app_nil_r.
  - rewrite push_entry_app.
    destruct (convertible (snd entry)); [|reflexivity].
    rewrite IH, <- app_assoc. reflexivity.
Qed.

Lemma collect_not_nan (entries : list (string * JS.value)) :
  Forall (fun p => Num.isNaN (value p) = false) (collect entries).
Proof.
  unfold collect. induction entries as [|entry rest IH]; simpl.
  - constructor.
  - apply Forall_app. split; [|exact IH].
    unfold entry_points. destruct (Num.isNaN (entry_number (snd entry))) eqn:Hnan.
    + constructor.
    + constructor; [exact Hnan | constructor].
Qed.

(** The nested conditional of lines 138-144 is the ordered chain. *)
Lemma item_value_chain (obj : JS.value) : item_value obj = chain_value obj.
Proof.
  unfold item_value, chain_value. cbn [first_number].
  repeat match goal with
    | |- context [match ?o with Some _ => _ | None => _ end] =>
        destruct o; try reflexivity
    end.
Qed.

Lemma or_zero_not_nan (x : Num.number) : Num.isNaN (or_zero x) = false.
Proof.
  unfold or_zero, ToBoolean.
  destruct (Num.isNaN x) eqn:Hnan; simpl; [reflexivity|].
  destruct (Num.is_zero x); simpl; [reflexivity | exact Hnan].
Qed.

Lemma first_number_not_nan (obj : JS.value) (keys : list string) (n : Num.number) :
  forallb (fun key => match as_number (get obj key) with
                      | Some n => negb (Num.isNaN n)
                      | None => true
                      end) keys = true ->
  first_number obj keys = Some n ->
  Num.isNaN n = false.
Proof.
  induction keys as [|key rest IH]; simpl; intros Hall Hfirst.
  - discriminate.
  - apply andb_prop in Hall as [Hkey Hrest].
    destruct (as_number (get obj key)) as [n0|]; [|now apply IH].
    injection Hfirst as Heq. subst n0. now apply negb_true_iff in Hkey.
Qed.

Lemma chain_value_not_nan (obj : JS.value) :
  number_fields_not_nan obj = true -> Num.isNaN (chain_value obj) = false.
Proof.
  unfold number_fields_not_nan, chain_value. intros Hall.
  cbn [forallb] in Hall. apply andb_prop in Hall as [Hvalue Hrest].
  destruct (as_number (get obj "value")) as [n|].
  - now apply negb_true_iff in Hvalue.
  - destruct (as_string (get obj "value")) as [s|].
    + apply or_zero_not_nan.
    + destruct (first_number obj _) eqn:Hfirst; [|reflexivity].
      eapply first_number_not_nan; [|exact Hfirst]. exact Hrest.
Qed.

Lemma points_from_length (xs : list Num.number) :
  forall i, List.length (points_from i xs) = List.length xs.
Proof.
  induction xs as [|x rest IH]; intros i; simpl; [reflexivity | now rewrite IH].
Qed.

Lemma points_from_nth (xs : list Num.number) :
  forall j i x,
    nth_error xs i = Some x ->
    nth_error (points_from j xs) i
    = Some (value_label x ("Point " ++ string_of_nat (j + i))).
Proof.
  induction xs as [|y rest IH]; intros j i x Hnth.
  - destruct i; discriminate.
  - destruct i as [|i]; simpl in *.
    + injection Hnth as ->. now rewrite Nat.add_0_r.
    + rewrite (IH (S j) i x Hnth). now rewrite Nat.add_succ_comm.
Qed.

(** The object format starts from an empty [result]: it goes on with it
    still empty, throws, or returns what some entry list yields. *)
Lemma returns_or_next (entries : list (string * JS.value)) :
  match push_entries entries [] with
  | Throw e => Throws e
  | Return result =>
      if (0 <? List.length result)%nat then Returns result else Next result
  end
  = if entries_convertible entries then
      match collect entries with
      | [] => Next []
      | p :: rest => Returns (p :: rest)
      end
    else Throws conversion_error.
Proof.
  rewrite push_entries_collect. cbn [app].
  destruct (entries_convertible entries); [|reflexivity].
  destruct (collect entries); reflexivity.
Qed.

Lemma flat_map_format_cases (firstValue : JS.value)
    (entries : list (string * JS.value)) :
  flat_map_format firstValue entries [] = Next []
  \/ flat_map_format firstValue entries [] = Throws conversion_error
  \/ flat_map_format firstValue entries [] = Returns (collect entries).
Proof.
  unfold flat_map_format.
  destruct (match firstValue with
            | VNumber _ => true
            | VString s => negb (Num.isNaN (Num.parseFloat s))
            | _ => false
            end); [|now left].
  rewrite returns_or_next.
  destruct (entries_convertible entries); [|now right; left].
  destruct (collect entries); [now left | now right; right].
Qed.

Lemma nested_map_format_cases (firstValue : JS.value)
    (entries : list (string * JS.value)) :
  nested_map_format firstValue entries [] = Next []
  \/ (exists e, nested_map_format firstValue entries [] = Throws e)
  \/ (exists segments,
        nested_map_format firstValue entries [] = Returns (collect segments)).
Proof.
  unfold nested_map_format.
  destruct (ToBoolean firstValue && type_name_eqb (typeof firstValue) Tobject
            && negb (isArray firstValue)); [|now left].
  destruct (Object_entries _) as [segments|e].
  - rewrite returns_or_next.
    destruct (entries_convertible segments);
      [|right; left; now eexists].
    destruct (collect segments) eqn:Hsegments.
    + now left.
    + right. right. exists segments. now rewrite Hsegments.
  - right. left. now exists e.
Qed.

Lemma object_format_cases (data : JS.value) :
  object_format data [] = Next []
  \/ (exists e, object_format data [] = Throws e)
  \/ (exists entries, object_format data [] = Returns (collect entries)).
Proof.
  unfold object_format.
  destruct (type_name_eqb (typeof data) Tobject && negb (isArray data)
            && negb (is_null data)); [|now left].
  destruct (Object_entries data) as [entries|e]; [|right; left; now exists e].
  destruct entries as [|first rest]; [now left|].
  destruct (flat_map_format_cases (snd first) (first :: rest))
    as [-> | [-> | ->]].
  - apply nested_map_format_cases.
  - right. left. now eexists.
  - right. right. now exists (first :: rest).
Qed.

(** Keys that are not array indices are enumerated in the order of their
    creation. *)
Lemma own_properties_named (props : list (string * JS.value)) :
  forall indexed named,
    (forall p, In p props -> array_index (fst p) = None) ->
    own_properties props indexed named = map snd indexed ++ named ++ props.
Proof.
  induction props as [|p rest IH]; intros indexed named Hnamed; simpl.
  - now rewrite app_nil_r.
  - rewrite (Hnamed p (or_introl eq_refl)).
    rewrite IH by (intros q Hq; apply Hnamed; now right).
    now rewrite <- app_assoc.
Qed.

Lemma own_entries_named (props : list (string * JS.value)) :
  (forall p, In p props -> array_index (fst p) = None) ->
  own_entries props = props.
Proof.
  intros Hnamed. unfold own_entries.
  now rewrite own_properties_named.
Qed.

(** The index in "Point i+1" is modelled by a natural number: on such
    integers [Number::toString] gives the decimal digits. *)
Example index_label_digits :
  map Num.toString [1; 2; 10; 99; 1000; 4096]%float
  = map string_of_nat [1; 2; 10; 99; 1000; 4096].
Proof. vm_compute. reflexivity. Qed.

Section Normalizer.

Variable Date_parse : string -> JSDate.Date.
Variable LocalTZA : Z -> Z.

Local Notation "'normalize'" := (normalizeChartData Date_parse LocalTZA).
Local Notation "'item_points'" := (array_item Date_parse LocalTZA).
Local Notation "'loop'" := (array_loop Date_parse LocalTZA).

Lemma array_item_app (item : JS.value) (i : nat) (result : list ChartDataPoint) :
  item_points item i result = result ++ item_points item i [].
Proof.
  unfold array_item, push.
  destruct item as [| |b|n|s|items|props]; simpl;
    repeat match goal with
      | |- context [if ?c then _ else _] => destruct c; simpl
      end;
    rewrite ?app_nil_r; reflexivity.
Qed.

Lemma array_loop_app (items : list JS.value) :
  forall i result, loop items i result = result ++ loop items i [].
Proof.
  induction items as [|item rest IH]; intros i result; simpl.
  - now rewrite app_nil_r.
  - rewrite IH, (IH _ (item_points item i [])), array_item_app, <- app_assoc.
    reflexivity.
Qed.

Lemma array_loop_cons (item : JS.value) (rest : list JS.value) (i : nat) :
  loop (item :: rest) i [] = item_points item i [] ++ loop rest (S i) [].
Proof. simpl. apply array_loop_app. Qed.

(** What an element yields at its own index is part of the result. *)
Lemma array_loop_In (items : list JS.value) :
  forall j i item p,
    nth_error items i = Some item ->
    In p (item_points item (j + i) []) ->
    In p (loop items j []).
Proof.
  induction items as [|x rest IH]; intros j i item p Hnth Hin.
  - destruct i; discriminate.
  - rewrite array_loop_cons. apply in_or_app. destruct i as [|i]; simpl in Hnth.
    + injection Hnth as ->. rewrite Nat.add_0_r in Hin. now left.
    + right. apply (IH (S j) i item p Hnth).
      now rewrite Nat.add_succ_comm.
Qed.

Lemma array_loop_numbers (xs : list Num.number) :
  forall i, loop (map VNumber xs) i [] = points_from (S i) xs.
Proof.
  induction xs as [|x rest IH]; intros i.
  - reflexivity.
  - cbn [map]. rewrite array_loop_cons, IH. simpl.
    now rewrite Nat.add_1_r.
Qed.

Lemma normalize_array (items : list JS.value) :
  normalize (VArray items)
  = if (List.length items =? 0)%nat then Throw not_a_series
    else if (List.length (loop items 0 []) =? 0)%nat then Throw nothing_numeric
    else Return (loop items 0 []).
Proof. reflexivity. Qed.

Lemma normalize_array_nonempty (items : list JS.value) (p : ChartDataPoint) :
  In p (loop items 0 []) -> normalize (VArray items) = Return (loop items 0 []).
Proof.
  intros Hin. rewrite normalize_array.
  destruct items as [|item rest]; [contradiction|].
  destruct (loop (item :: rest) 0 []); [contradiction | reflexivity].
Qed.

Lemma array_item_not_nan (item : JS.value) (i : nat) :
  element_not_nan item = true ->
  Forall (fun p => Num.isNaN (value p) = false) (item_points item i []).
Proof.
  intros Hok.
  assert (Hobject :
    forall obj, number_fields_not_nan obj = true ->
      Forall (fun p => Num.isNaN (value p) = false)
        (if item_skipped obj (item_value obj) then []
         else push [] (object_point Date_parse LocalTZA obj (item_value obj)))).
  { intros obj Hfields. destruct (item_skipped obj (item_value obj)).
    - constructor.
    - repeat constructor. simpl.
      rewrite item_value_chain. now apply chain_value_not_nan. }
  destruct item as [| |b|n|s|items|props]; unfold array_item.
  - constructor.
  - constructor.
  - destruct b; constructor.
  - repeat constructor. now apply negb_true_iff in Hok.
  - destruct (Num.isNaN (Num.parseFloat s)) eqn:Hnan; repeat constructor.
    exact Hnan.
  - apply (Hobject (VArray items) Hok).
  - apply (Hobject (VObject props) Hok).
Qed.

Lemma array_loop_not_nan (items : list JS.value) :
  forall i,
    forallb element_not_nan items = true ->
    Forall (fun p => Num.isNaN (value p) = false) (loop items i []).
Proof.
  induction items as [|item rest IH]; intros i Hall.
  - constructor.
  - simpl in Hall. apply andb_prop in Hall as [Hitem Hrest].
    rewrite array_loop_cons. apply Forall_app. split.
    + now apply array_item_not_nan.
    + now apply IH.
Qed.

(** What the object format returns comes from entries, NaN left out. *)
Lemma object_format_not_nan (data : JS.value) (r : list ChartDataPoint) :
  object_format data [] = Returns r ->
  Forall (fun p => Num.isNaN (value p) = false) r.
Proof.
  intros Hreturns.
  destruct (object_format_cases data) as [Hnext | [[e Hthrows] | [es Hes]]];
    rewrite Hreturns in *; try discriminate.
  injection Hes as ->. apply collect_not_nan.
Qed.

Lemma normalize_returns (data : JS.value) (r : list ChartDataPoint) :
  normalize data = Return r ->
  (exists items, data = VArray items /\ r = loop items 0 [])
  \/ object_format data [] = Returns r.
Proof.
  unfold normalizeChartData.
  destruct (negb (ToBoolean data)); [discriminate|].
  destruct (object_format data []) as [result|result|e] eqn:Hformat.
  - destruct data as [| |b|n|s|items|props]; try discriminate.
    destruct (object_format_cases (VArray items)) as [Hnext | [[e He] | [es Hes]]];
      rewrite Hformat in *; try discriminate.
    injection Hnext as ->.
    destruct (List.length items =? 0)%nat; [discriminate|].
    destruct (List.length (loop items 0 []) =? 0)%nat; [discriminate|].
    intros Heq. injection Heq as <-. left. now exists items.
  - intros Heq. injection Heq as <-. now right.
  - discriminate.
Qed.

Lemma last_cons {A : Type} (x : A) (l : list A) (d : A) :
  last (x :: l) d = last l x.
Proof.
  revert x d. induction l as [|y l IH]; intros x d.
  - reflexivity.
  - change (last (y :: l) d = last (y :: l) x). now rewrite !IH.
Qed.

(** Line 146 tests the fields for truth, not for presence: an element whose
    value is the number 0, found in [value] or further down the chain, and
    whose five fields are all falsy, is skipped. *)
Lemma zero_element_skipped (obj : JS.value) (i : nat)
    (result : list ChartDataPoint) :
  is_object obj = true ->
  Num.is_zero (item_value obj) = true ->
  forallb (fun key => negb (ToBoolean (get obj key)))
    ["value"; "net_income"; "total_revenue"; "revenue"; "close"] = true ->
  item_points obj i result = result.
Proof.
  intros Hobject Hzero Hfalsy.
  assert (Hskipped : item_skipped obj (item_value obj) = true).
  { unfold item_skipped. rewrite Hzero. cbn [forallb] in Hfalsy.
    now rewrite andb_true_r, !andb_assoc in Hfalsy. }
  unfold array_item. rewrite Hskipped. unfold is_object in Hobject.
  destruct obj as [| |b|n|s|elements|props]; cbn in Hobject;
    rewrite ?andb_false_r in Hobject; try discriminate; reflexivity.
Qed.

(** The other paths keep a zero: a number element, an entry of a flat map,
    and a [value] given as the string "0". *)
Lemma zero_kept_elsewhere :
  normalize (VArray [VNumber 0%float]) = Return [value_label 0%float "Point 1"]
  /\ normalize (VObject [("a", VNumber 0%float)]) = Return [value_label 0%float "a"]
  /\ normalize (VArray [VObject [("value", VString "0")]])
     = Return [mkChartDataPoint 0%float None None None None None None].
Proof. repeat apply conj; vm_compute; reflexivity. Qed.

(** *** The properties of the specification *)

(** C1, as the code has it: an object element whose [value] is the number 0
    is skipped like an element with no recognised field, so
    [normalize([{value: 0}, {irrelevant: 1}])] throws instead of returning one
    Observation of value 0. *)
Theorem zero_value_element_skipped :
  normalize (VArray [VObject [("value", VNumber 0%float)];
                     VObject [("irrelevant", VNumber 1%float)]])
  = Throw nothing_numeric.
Proof. vm_compute. reflexivity. Qed.

(** C2, amended: on an input with no NaN number, as an array element or in a
    value field of an object element, no Observation returned by [normalize]
    has the value NaN.  (Values need not be finite.) *)
Theorem values_not_nan (data : JS.value) (r : list ChartDataPoint) :
  input_not_nan data = true ->
  normalize data = Return r ->
  Forall (fun p => Num.isNaN (value p) = false) r.
Proof.
  intros Hinput Hreturn.
  destruct (normalize_returns data r Hreturn) as [[items [-> ->]] | Hformat].
  - now apply array_loop_not_nan.
  - now apply (object_format_not_nan data).
Qed.

(** C3, amended: the Observation of an object element that is not skipped
    carries the value of the chain: the field [value] when it is a number, or
    a string (parsed, 0 when the parse is NaN or 0); otherwise the first of
    [net_income], [total_revenue], [revenue], [close] that is a number, strings
    in these four not being parsed; otherwise 0. *)
Theorem object_element_value_chain (items : list JS.value) (i : nat)
    (obj : JS.value) :
  nth_error items i = Some obj ->
  is_object obj = true ->
  item_skipped obj (chain_value obj) = false ->
  exists r,
    normalize (VArray items) = Return r
    /\ In (object_point Date_parse LocalTZA obj (chain_value obj)) r.
Proof.
  intros Hnth Hobject Hkept.
  assert (Hin : In (object_point Date_parse LocalTZA obj (chain_value obj))
                   (loop items 0 [])).
  { apply (array_loop_In items 0 i obj _ Hnth).
    unfold array_item. rewrite item_value_chain, Hkept.
    unfold is_object in Hobject.
    destruct obj as [| |b|n|s|elements|props]; cbn in Hobject;
      rewrite ?andb_false_r in Hobject; try discriminate; now left. }
  exists (loop items 0 []). split; [|exact Hin].
  now apply (normalize_array_nonempty items _ Hin).
Qed.

(** C4, as the code has it: [formatDateLabel] returns a string for every
    string; the month and the day when the string parses as a date, and
    "Invalid Date NaN" when it does not: [new Date] does not throw, so the
    [catch] that would return the first 10 characters never runs. *)
Theorem formatDateLabel_cases (dateStr : string) :
  (forall t, Date_parse dateStr = Some t ->
     formatDateLabel Date_parse LocalTZA dateStr
     = (JSDate.month_short (JSDate.MonthFromTime (JSDate.LocalTime LocalTZA t))
        ++ " "
        ++ Num.toString
             (PrimFloat.of_uint63
                (Uint63.of_Z (JSDate.DateFromTime (JSDate.LocalTime LocalTZA t)))))%string)
  /\ (Date_parse dateStr = None ->
      formatDateLabel Date_parse LocalTZA dateStr = "Invalid Date NaN").
Proof.
  unfold formatDateLabel, JSDate.new_Date, try_catch. split.
  - intros t ->. reflexivity.
  - intros ->. vm_compute. reflexivity.
Qed.

(** C5, as the code has it: [normalize([0])] returns one Observation of value
    0, and [normalize] throws on that output: the element is skipped like an
    object with no recognised field (the skip of C1). *)
Theorem zero_output_not_accepted :
  normalize (VArray [VNumber 0%float]) = Return [value_label 0%float "Point 1"]
  /\ normalize (to_array [value_label 0%float "Point 1"]) = Throw nothing_numeric.
Proof. split; vm_compute; reflexivity. Qed.

(** C6, amended: when the first entry of an object, in the order of
    [Object.entries], holds an object that is not an array, [normalize] reads
    the last entry in that order only, and returns the Observations of the
    entries of its value; it throws its error when there is none, and a
    TypeError when the value of one of these entries cannot be converted to
    a string.  That order is the order of insertion when no key is an array
    index. *)
Theorem nested_map_uses_last_entry :
  (forall (props : list (string * JS.value)) (first : string * JS.value)
          (rest inner : list (string * JS.value)),
     own_entries props = first :: rest ->
     snd first = VObject inner ->
     normalize (VObject props)
     = match Object_entries (snd (last rest first)) with
       | Throw e => Throw e
       | Return segments =>
           if entries_convertible segments then
             match collect segments with
             | [] => Throw not_a_series
             | p :: points => Return (p :: points)
             end
           else Throw conversion_error
       end)
  /\ (forall props : list (string * JS.value),
        (forall p, In p props -> array_index (fst p) = None) ->
        own_entries props = props).
Proof.
  split; [|exact own_entries_named].
  intros props first rest inner Hentries Hfirst.
  unfold normalizeChartData, object_format. cbn [ToBoolean negb typeof isArray
    is_null type_name_eqb andb Object_entries].
  rewrite Hentries. unfold flat_map_format, nested_map_format.
  rewrite Hfirst. cbn [ToBoolean negb typeof isArray type_name_eqb andb].
  rewrite last_cons.
  destruct (Object_entries (snd (last rest first))) as [segments|e];
    [|reflexivity].
  rewrite returns_or_next.
  destruct (entries_convertible segments); [|reflexivity].
  destruct (collect segments); reflexivity.
Qed.

(** C7: a non-empty array of numbers gives one Observation per element, in
    the order of the array, the element at index [i] labelled "Point i+1". *)
Theorem numeric_array_points (xs : list Num.number) :
  xs <> [] ->
  exists r,
    normalize (VArray (map VNumber xs)) = Return r
    /\ List.length r = List.length xs
    /\ forall i x,
         nth_error xs i = Some x ->
         nth_error r i
         = Some (value_label x ("Point " ++ string_of_nat (i + 1))).
Proof.
  intros Hnonempty. exists (points_from 1 xs). repeat apply conj.
  - rewrite normalize_array, array_loop_numbers, length_map, points_from_length.
    destruct xs; [contradiction | reflexivity].
  - apply points_from_length.
  - intros i x Hnth. rewrite (points_from_nth xs 1 i x Hnth).
    now rewrite Nat.add_comm.
Qed.

(** C8: [null], the empty array, the empty object and [[{foo: "bar"}]] all
    make [normalize] throw an error; none gives an empty sequence. *)
Theorem invalid_inputs_throw :
  normalize VNull = Throw required
  /\ normalize (VArray []) = Throw not_a_series
  /\ normalize (VObject []) = Throw not_a_series
  /\ normalize (VArray [VObject [("foo", VString "bar")]]) = Throw nothing_numeric.
Proof. repeat apply conj; vm_compute; reflexivity. Qed.

(** C9: every falsy input throws "Data is required", whatever its shape. *)
Theorem falsy_input_required (data : JS.value) :
  ToBoolean data = false -> normalize data = Throw required.
Proof.
  intros Hfalsy. unfold normalizeChartData. rewrite Hfalsy. reflexivity.
Qed.

(** C10: the label "Point i+1" of a number or numeric string is numbered by
    the element's index [i] in the input array, whatever was skipped before
    it; [normalize(["abc", 5])] is the one Observation labelled "Point 2". *)
Theorem point_label_uses_input_index :
  (forall (items : list JS.value) (i : nat) (item : JS.value) (num : Num.number),
     nth_error items i = Some item ->
     element_number item = Some num ->
     exists r,
       normalize (VArray items) = Return r
       /\ In (value_label num ("Point " ++ string_of_nat (i + 1))) r)
  /\ normalize (VArray [VString "abc"; VNumber 5%float])
     = Return [value_label 5%float "Point 2"].
Proof.
  split; [|vm_compute; reflexivity].
  intros items i item num Hnth Hnumber.
  assert (Hin : In (value_label num ("Point " ++ string_of_nat (i + 1)))
                   (loop items 0 [])).
  { apply (array_loop_In items 0 i item _ Hnth).
    unfold array_item, push. cbn [Nat.add].
    destruct item as [| |b|n|s|elements|props]; try discriminate; simpl in Hnumber.
    - injection Hnumber as ->. now left.
    - destruct (Num.isNaN (Num.parseFloat s)); [discriminate|].
      injection Hnumber as ->. now left. }
  exists (loop items 0 []). split; [|exact Hin].
  now apply (normalize_array_nonempty items _ Hin).
Qed.

End Normalizer.

(** *** Instances on the example host, and refuting inputs *)

Lemma values_not_nan_example :
  input_not_nan
    (VArray [VString "Infinity"; VString "abc";
             VObject [("value", VString "x")]; VNumber 5%float]) = true
  /\ Forall (fun p => Num.isNaN (value p) = false)
       [value_label infinity "Point 1";
        mkChartDataPoint 0%float None None None None None None;
        value_label 5%float "Point 4"].
Proof.
  split; [reflexivity|].
  apply (values_not_nan JSDate.Date_parse_iso JSDate.LocalTZA_utc
           (VArray [VString "Infinity"; VString "abc";
                    VObject [("value", VString "x")]; VNumber 5%float]));
    vm_compute; reflexivity.
Defined.

(** C2 as stated fails: the string "Infinity" gives an Observation whose value
    is not finite, and the number NaN in an array is returned as it is. *)
Lemma infinite_and_nan_values_returned :
  normalize_utc (VArray [VString "Infinity"])
  = Return [value_label infinity "Point 1"]
  /\ isFinite infinity = false
  /\ normalize_utc (VArray [VNumber nan]) = Return [value_label nan "Point 1"]
  /\ Num.isNaN nan = true.
Proof. repeat apply conj; vm_compute; reflexivity. Qed.

Lemma object_element_value_chain_example :
  exists r,
    normalize_utc
      (VArray [VObject [("value", VString "abc"); ("net_income", VNumber 75%float)]])
    = Return r
    /\ In (mkChartDataPoint 0%float None None None None None None) r.
Proof.
  exact (object_element_value_chain JSDate.Date_parse_iso JSDate.LocalTZA_utc
           [VObject [("value", VString "abc"); ("net_income", VNumber 75%float)]]
           0 _ eq_refl eq_refl eq_refl).
Defined.

(** C3 as stated fails: a [value] that is a non-numeric string ends the chain
    with 0, and the numeric [net_income] is not used; a numeric string in
    [net_income] is not parsed. *)
Lemma string_value_ends_chain :
  normalize_utc
    (VArray [VObject [("value", VString "abc"); ("net_income", VNumber 75%float)]])
  = Return [mkChartDataPoint 0%float None None None None None None]
  /\ normalize_utc (VArray [VObject [("net_income", VString "75")]])
     = Return [mkChartDataPoint 0%float None None None None None None].
Proof. split; vm_compute; reflexivity. Qed.

Lemma formatDateLabel_examples :
  formatDateLabel_utc "2024-01-15" = "Jan 15"
  /\ formatDateLabel_utc "not-a-date" = "Invalid Date NaN"
  /\ slice_0_10 "not-a-date" = "not-a-date".
Proof.
  unfold formatDateLabel_utc. repeat apply conj.
  - rewrite (proj1 (formatDateLabel_cases JSDate.Date_parse_iso
                      JSDate.LocalTZA_utc "2024-01-15")
               1705276800000%Z eq_refl).
    vm_compute. reflexivity.
  - apply (proj2 (formatDateLabel_cases JSDate.Date_parse_iso
                    JSDate.LocalTZA_utc "not-a-date")).
    reflexivity.
  - reflexivity.
Defined.

Lemma nested_map_example :
  normalize_utc
    (VObject
       [("2024-01-31", VObject [("A", VNumber 10%float); ("B", VNumber 20%float)]);
        ("2024-02-28", VObject [("A", VNumber 15%float); ("B", VNumber 25%float)])])
  = Return [value_label 15%float "A"; value_label 25%float "B"]
  /\ normalize_utc
       (VObject
          [("2024-01-31",
            VObject [("A", VNumber 5%float);
                     ("B", VObject [("toString", VNumber 1%float)])])])
     = Throw conversion_error.
Proof.
  unfold normalize_utc. split.
  - rewrite (proj1 (nested_map_uses_last_entry JSDate.Date_parse_iso
                      JSDate.LocalTZA_utc)
               [("2024-01-31",
                 VObject [("A", VNumber 10%float); ("B", VNumber 20%float)]);
                ("2024-02-28",
                 VObject [("A", VNumber 15%float); ("B", VNumber 25%float)])]
               ("2024-01-31",
                VObject [("A", VNumber 10%float); ("B", VNumber 20%float)])
               [("2024-02-28",
                 VObject [("A", VNumber 15%float); ("B", VNumber 25%float)])]
               [("A", VNumber 10%float); ("B", VNumber 20%float)]
               eq_refl eq_refl).
    vm_compute. reflexivity.
  - rewrite (proj1 (nested_map_uses_last_entry JSDate.Date_parse_iso
                      JSDate.LocalTZA_utc)
               [("2024-01-31",
                 VObject [("A", VNumber 5%float);
                          ("B", VObject [("toString", VNumber 1%float)])])]
               ("2024-01-31",
                VObject [("A", VNumber 5%float);
                         ("B", VObject [("toString", VNumber 1%float)])])
               []
               [("A", VNumber 5%float);
                ("B", VObject [("toString", VNumber 1%float)])]
               eq_refl eq_refl).
    vm_compute. reflexivity.
Defined.

(** C6 as stated fails: keys that are array indices are enumerated first, in
    ascending numeric order, so with the period "2024" written before "2023"
    the entry read is "2024", not the one inserted last. *)
Lemma index_keys_read_in_numeric_order :
  normalize_utc
    (VObject [("2024", VObject [("A", VNumber 10%float)]);
              ("2023", VObject [("A", VNumber 15%float)])])
  = Return [value_label 10%float "A"]
  /\ last [("2024", VObject [("A", VNumber 10%float)]);
           ("2023", VObject [("A", VNumber 15%float)])] ("", VUndefined)
     = ("2023", VObject [("A", VNumber 15%float)]).
Proof. split; vm_compute; reflexivity. Qed.

Lemma numeric_array_points_example :
  normalize_utc (VArray (map VNumber [100; 200; 150]%float))
  = Return [value_label 100%float "Point 1"; value_label 200%float "Point 2";
            value_label 150%float "Point 3"]
  /\ exists r,
       normalize_utc (VArray (map VNumber [100; 200; 150]%float)) = Return r
       /\ List.length r = 3
       /\ forall i x,
            nth_error [100; 200; 150]%float i = Some x ->
            nth_error r i
            = Some (value_label x ("Point " ++ string_of_nat (i + 1))).
Proof.
  split; [vm_compute; reflexivity|].
  apply (numeric_array_points JSDate.Date_parse_iso JSDate.LocalTZA_utc
           [100; 200; 150]%float).
  discriminate.
Defined.

Lemma falsy_input_required_examples :
  normalize_utc VNull = Throw required
  /\ normalize_utc VUndefined = Throw required
  /\ normalize_utc (VNumber 0%float) = Throw required
  /\ normalize_utc (VString "") = Throw required
  /\ normalize_utc (VBoolean false) = Throw required
  /\ normalize_utc (VNumber nan) = Throw required.
Proof.
  repeat apply conj;
    apply (falsy_input_required JSDate.Date_parse_iso JSDate.LocalTZA_utc);
    reflexivity.
Defined.

Lemma point_label_example :
  exists r,
    normalize_utc (VArray [VString "abc"; VString "7"; VNumber 5%float]) = Return r
    /\ In (value_label 5%float "Point 3") r.
Proof.
  exact (proj1 (point_label_uses_input_index JSDate.Date_parse_iso
                  JSDate.LocalTZA_utc)
           [VString "abc"; VString "7"; VNumber 5%float] 2 _ _ eq_refl eq_refl).
Defined.

(** *** More on the normaliser *)

Import Shapes.

Section NormalizerShapes.

Variable Date_parse : string -> JSDate.Date.
Variable LocalTZA : Z -> Z.

Local Notation "'normalize'" := (normalizeChartData Date_parse LocalTZA).
Local Notation "'loop'" := (array_loop Date_parse LocalTZA).

Lemma normalize_object (props : list (string * JS.value)) :
  normalize (VObject props)
  = match object_format (VObject props) [] with
    | Next _ => Throw not_a_series
    | Returns r => Return r
    | Throws e => Throw e
    end.
Proof.
  unfold normalizeChartData. cbn [ToBoolean negb].
  destruct (object_format (VObject props) []); reflexivity.
Qed.

Lemma object_format_flat (props : list (string * JS.value))
    (first : string * JS.value) (rest : list (string * JS.value)) :
  own_entries props = first :: rest ->
  first_is_numeric (snd first) = true ->
  object_format (VObject props) []
  = if entries_convertible (first :: rest) then
      match collect (first :: rest) with
      | [] => Next []
      | p :: points => Returns (p :: points)
      end
    else Throws conversion_error.
Proof.
  intros Hentries Hfirst. unfold object_format.
  cbn [typeof isArray is_null type_name_eqb negb andb Object_entries].
  rewrite Hentries. unfold flat_map_format.
  unfold first_is_numeric in Hfirst. rewrite Hfirst, returns_or_next.
  destruct (entries_convertible (first :: rest)); [|reflexivity].
  destruct (collect (first :: rest)); [|reflexivity].
  unfold nested_map_format.
  destruct (snd first); try discriminate; cbn [typeof type_name_eqb andb];
    now rewrite andb_false_r.
Qed.

Lemma normalize_flat (props : list (string * JS.value))
    (first : string * JS.value) (rest : list (string * JS.value)) :
  own_entries props = first :: rest ->
  first_is_numeric (snd first) = true ->
  normalize (VObject props)
  = if entries_convertible (first :: rest) then
      match collect (first :: rest) with
      | [] => Throw not_a_series
      | p :: points => Return (p :: points)
      end
    else Throw conversion_error.
Proof.
  intros Hentries Hfirst.
  rewrite normalize_object, (object_format_flat props first rest Hentries Hfirst).
  destruct (entries_convertible (first :: rest)); [|reflexivity].
  destruct (collect (first :: rest)); reflexivity.
Qed.

(** X1: an object whose first entry holds a number or a numeric string is
    read as a flat map: one Observation per entry whose value is a number or
    parses as one, in the order of [Object.entries], the others dropped; it
    is an error when none is left, and a TypeError when the value of an
    entry cannot be converted to a string. *)
Theorem flat_map_entries (props : list (string * JS.value))
    (first : string * JS.value) (rest : list (string * JS.value)) :
  own_entries props = first :: rest ->
  first_is_numeric (snd first) = true ->
  normalize (VObject props)
  = if entries_convertible (first :: rest) then
      match collect (first :: rest) with
      | [] => Throw not_a_series
      | p :: points => Return (p :: points)
      end
    else Throw conversion_error.
Proof. exact (normalize_flat props first rest). Qed.

Lemma numbers_convertible (entries : list (string * Num.number)) :
  entries_convertible (map (fun entry => (fst entry, VNumber (snd entry))) entries)
  = true.
Proof.
  unfold entries_convertible.
  induction entries as [|entry rest IH]; [reflexivity | exact IH].
Qed.

Lemma collect_numbers (entries : list (string * Num.number)) :
  (forall entry, In entry entries -> Num.isNaN (snd entry) = false) ->
  collect (map (fun entry => (fst entry, VNumber (snd entry))) entries)
  = map (fun entry => value_label (snd entry) (fst entry)) entries.
Proof.
  unfold collect. induction entries as [|entry rest IH]; intros Hnumbers.
  - reflexivity.
  - cbn [map flat_map]. rewrite IH by (intros e He; apply Hnumbers; now right).
    unfold entry_points. cbn [fst snd entry_number].
    now rewrite (Hnumbers entry (or_introl eq_refl)).
Qed.

(** X2: an object whose values are all numbers other than NaN, under keys
    that are not array indices, gives one Observation per property, in the
    order of the properties: the key is the label and the number the value. *)
Theorem flat_number_map (entries : list (string * Num.number)) :
  entries <> [] ->
  (forall entry, In entry entries ->
     array_index (fst entry) = None /\ Num.isNaN (snd entry) = false) ->
  normalize (number_map entries)
  = Return (map (fun entry => value_label (snd entry) (fst entry)) entries).
Proof.
  intros Hnonempty Hentries. unfold number_map.
  destruct entries as [|first rest]; [contradiction|].
  pose (props := map (fun entry : string * Num.number =>
                        (fst entry, VNumber (snd entry))) (first :: rest)).
  assert (Hown : own_entries props = props).
  { apply own_entries_named. intros q Hq. apply in_map_iff in Hq.
    destruct Hq as [entry [<- Hin]]. now apply Hentries. }
  change (normalize (VObject props)
          = Return (map (fun entry => value_label (snd entry) (fst entry))
                      (first :: rest))).
  rewrite (normalize_flat props (fst first, VNumber (snd first))
             (map (fun entry => (fst entry, VNumber (snd entry))) rest)
             Hown eq_refl).
  change ((fst first, VNumber (snd first))
          :: map (fun entry : string * Num.number =>
                    (fst entry, VNumber (snd entry))) rest)
    with (map (fun entry : string * Num.number =>
                 (fst entry, VNumber (snd entry))) (first :: rest)).
  rewrite numbers_convertible.
  rewrite collect_numbers by (intros entry Hin; now apply Hentries).
  reflexivity.
Qed.

Lemma object_format_returns_nonempty (data : JS.value)
    (r : list ChartDataPoint) :
  object_format data [] = Returns r -> r <> [].
Proof.
  assert (Hpushed : forall es,
    (if entries_convertible es then
       match collect es with
       | [] => Next []
       | p :: points => Returns (p :: points)
       end
     else Throws conversion_error) = Returns r -> r <> []).
  { intros es. destruct (entries_convertible es); [|discriminate].
    destruct (collect es); [discriminate|].
    intros Heq. injection Heq as <-. discriminate. }
  unfold object_format.
  destruct (type_name_eqb (typeof data) Tobject && negb (isArray data)
            && negb (is_null data)); [|discriminate].
  destruct (Object_entries data) as [entries|e]; [|discriminate].
  destruct entries as [|first rest]; [discriminate|].
  unfold flat_map_format, nested_map_format.
  destruct (match snd first with
            | VNumber _ => true
            | VString s => negb (Num.isNaN (Num.parseFloat s))
            | _ => false
            end).
  - rewrite returns_or_next.
    destruct (entries_convertible (first :: rest)); [|discriminate].
    destruct (collect (first :: rest)) eqn:Hflat.
    + destruct (ToBoolean (snd first) && type_name_eqb (typeof (snd first)) Tobject
                && negb (isArray (snd first))); [|discriminate].
      destruct (Object_entries _) as [segments|e]; [|discriminate].
      rewrite returns_or_next. apply Hpushed.
    + intros Heq. injection Heq as <-. discriminate.
  - destruct (ToBoolean (snd first) && type_name_eqb (typeof (snd first)) Tobject
              && negb (isArray (snd first))); [|discriminate].
    destruct (Object_entries _) as [segments|e]; [|discriminate].
    rewrite returns_or_next. apply Hpushed.
Qed.

Lemma normalize_returns_nonempty (data : JS.value) (r : list ChartDataPoint) :
  normalize data = Return r -> r <> [].
Proof.
  intros Hreturn.
  destruct (normalize_returns Date_parse LocalTZA data r Hreturn)
    as [[items [-> ->]] | Hformat].
  - rewrite normalize_array in Hreturn.
    destruct (List.length items =? 0)%nat; [discriminate|].
    destruct (loop items 0 []); [discriminate | discriminate].
  - now apply (object_format_returns_nonempty data).
Qed.

(** X3: [normalize] returns only for an array or an object, and what it
    returns is never the empty sequence. *)
Theorem success_shape (data : JS.value) (r : list ChartDataPoint) :
  normalize data = Return r ->
  r <> [] /\ (isArray data = true \/ exists props, data = VObject props).
Proof.
  intros Hreturn. split; [now apply (normalize_returns_nonempty data)|].
  destruct (normalize_returns Date_parse LocalTZA data r Hreturn)
    as [[items [-> ->]] | Hformat].
  - now left.
  - destruct data as [| |b|n|s|items|props]; try discriminate.
    right. now exists props.
Qed.

Lemma array_item_length (item : JS.value) (i : nat) :
  (List.length (array_item Date_parse LocalTZA item i []) <= 1)%nat.
Proof.
  unfold array_item, push.
  destruct item as [| |b|n|s|items|props]; simpl;
    repeat match goal with
      | |- context [if ?c then _ else _] => destruct c; simpl
      end;
    auto.
Qed.

Lemma array_loop_length (items : list JS.value) :
  forall i, (List.length (loop items i []) <= List.length items)%nat.
Proof.
  induction items as [|item rest IH]; intros i.
  - apply le_n.
  - rewrite array_loop_cons, length_app. cbn [List.length].
    pose proof (array_item_length item i). pose proof (IH (S i)).
    apply (Nat.add_le_mono _ 1 _ _ H H0).
Qed.

(** X4: an array gives at most one Observation per element. *)
Theorem array_result_bounded (items : list JS.value) (r : list ChartDataPoint) :
  normalize (VArray items) = Return r ->
  (List.length r <= List.length items)%nat.
Proof.
  rewrite normalize_array.
  destruct (List.length items =? 0)%nat; [discriminate|].
  destruct (List.length (loop items 0 []) =? 0)%nat; [discriminate|].
  intros Heq. injection Heq as <-. apply array_loop_length.
Qed.

(** X5: [normalize] throws one of its three errors, or a TypeError: that
    of [Object.entries], for a nested map whose last entry holds [null] or
    [undefined], or that of [String], for a flat map, or the last entry of a
    nested map, with a value that cannot be converted to a string. *)
Theorem thrown_errors (data : JS.value) (e : exn) :
  normalize data = Throw e ->
  e = required \/ e = not_a_series \/ e = nothing_numeric
  \/ ((exists message, e = TypeError message)
      /\ exists props first rest,
           data = VObject props
           /\ own_entries props = first :: rest
           /\ ((first_is_numeric (snd first) = true
                /\ entries_convertible (first :: rest) = false)
               \/ (exists inner, snd first = VObject inner)
                  /\ (snd (last rest first) = VNull
                      \/ snd (last rest first) = VUndefined
                      \/ exists segments,
                           Object_entries (snd (last rest first))
                           = Return segments
                           /\ entries_convertible segments = false))).
Proof.
  assert (Hprimitive : forall v,
    typeof v <> Tobject ->
    normalize v = Throw e -> e = required \/ e = not_a_series).
  { intros v Htype. unfold normalizeChartData, object_format.
    destruct (negb (ToBoolean v)).
    - intros Heq. injection Heq as <-. now left.
    - destruct v; try (now contradiction Htype); cbn;
        intros Heq; injection Heq as <-; now right. }
  destruct data as [| |b|n|s|items|props].
  - intros H. destruct (Hprimitive VUndefined) as [-> | ->]; auto; discriminate.
  - unfold normalizeChartData. cbn [ToBoolean negb].
    intros Heq. injection Heq as <-. now left.
  - intros H. destruct (Hprimitive (VBoolean b)) as [-> | ->]; auto; discriminate.
  - intros H. destruct (Hprimitive (VNumber n)) as [-> | ->]; auto; discriminate.
  - intros H. destruct (Hprimitive (VString s)) as [-> | ->]; auto; discriminate.
  - rewrite normalize_array.
    destruct (List.length items =? 0)%nat.
    + intros Heq. injection Heq as <-. auto.
    + destruct (List.length (loop items 0 []) =? 0)%nat; [|discriminate].
      intros Heq. injection Heq as <-. auto.
  - rewrite normalize_object. unfold object_format.
    cbn [typeof isArray is_null type_name_eqb negb andb Object_entries].
    destruct (own_entries props) as [|first rest] eqn:Hentries.
    + intros Heq. injection Heq as <-. auto.
    + unfold flat_map_format.
      change (match snd first with
              | VNumber _ => true
              | VString s => negb (Num.isNaN (Num.parseFloat s))
              | _ => false
              end) with (first_is_numeric (snd first)).
      destruct (first_is_numeric (snd first)) eqn:Hnumeric.
      * rewrite returns_or_next.
        destruct (entries_convertible (first :: rest)) eqn:Hconvertible.
        -- destruct (collect (first :: rest)); [|discriminate].
           unfold nested_map_format.
           destruct (snd first); try discriminate Hnumeric;
             cbn [ToBoolean typeof isArray type_name_eqb negb andb];
             rewrite ?andb_false_r;
             intros Heq; injection Heq as <-; auto.
        -- intros Heq. injection Heq as <-. right. right. right.
           split; [now eexists|]. exists props, first, rest.
           split; [reflexivity|]. split; [exact Hentries|]. left. now split.
      * unfold nested_map_format. rewrite last_cons.
        destruct (snd first) as [| |b|n|s|items|inner] eqn:Hfirst;
          cbn [ToBoolean typeof isArray type_name_eqb negb andb];
          try (intros Heq; injection Heq as <-; now auto).
        -- destruct b; cbn; intros Heq; injection Heq as <-; auto.
        -- destruct (negb _ ); cbn; intros Heq; injection Heq as <-; auto.
        -- destruct (negb _ ); cbn; intros Heq; injection Heq as <-; auto.
        -- destruct (Object_entries (snd (last rest first)))
             as [segments|e'] eqn:Hsegments.
           ++ rewrite returns_or_next.
              destruct (entries_convertible segments) eqn:Hconvertible.
              ** destruct (collect segments); [|discriminate].
                 intros Heq. injection Heq as <-. auto.
              ** intros Heq. injection Heq as <-. right. right. right.
                 split; [now eexists|]. exists props, first, rest.
                 split; [reflexivity|]. split; [exact Hentries|]. right.
                 split; [now exists inner|]. right. right.
                 now exists segments.
           ++ intros Heq. injection Heq as <-. right. right. right.
              destruct (snd (last rest first)) as [| |b|n|s|items|segments]
                eqn:Hlast;
                try discriminate Hsegments; injection Hsegments as <-;
                (split; [now eexists|]); exists props, first, rest;
                (split; [reflexivity|]); (split; [exact Hentries|]); right;
                (split; [now exists inner|]); auto.
Qed.

Lemma get_to_value (p : ChartDataPoint) :
  get (to_value p) "value" = VNumber (value p)
  /\ get (to_value p) "label"
     = match label p with Some s => VString s | None => VUndefined end
  /\ get (to_value p) "date"
     = match date p with Some s => VString s | None => VUndefined end
  /\ get (to_value p) "open"
     = match open p with Some n => VNumber n | None => VUndefined end
  /\ get (to_value p) "high"
     = match high p with Some n => VNumber n | None => VUndefined end
  /\ get (to_value p) "low"
     = match low p with Some n => VNumber n | None => VUndefined end
  /\ get (to_value p) "close"
     = match close p with Some n => VNumber n | None => VUndefined end
  /\ Forall (fun key => get (to_value p) key = VUndefined)
       ["net_income"; "total_revenue"; "revenue"; "report_period";
        "fiscal_year"; "quarter"; "year"].
Proof.
  destruct p as [v [l|] [d|] [o|] [h|] [lo|] [c|]];
    repeat apply conj; repeat constructor.
Qed.

Lemma array_item_object (props : list (string * JS.value)) (i : nat) :
  array_item Date_parse LocalTZA (VObject props) i []
  = if item_skipped (VObject props) (item_value (VObject props)) then []
    else [object_point Date_parse LocalTZA (VObject props)
            (item_value (VObject props))].
Proof.
  unfold array_item, object_point, push.
  cbn [ToBoolean typeof type_name_eqb andb app]. reflexivity.
Qed.

Lemma array_item_to_value (p : ChartDataPoint) (i : nat) :
  array_item Date_parse LocalTZA (to_value p) i []
  = if item_skipped (to_value p) (item_value (to_value p)) then []
    else [object_point Date_parse LocalTZA (to_value p)
            (item_value (to_value p))].
Proof. unfold to_value. apply array_item_object. Qed.

Lemma array_item_again (p : ChartDataPoint) (i : nat) :
  array_item Date_parse LocalTZA (to_value p) i []
  = if kept_again p then [seen_again Date_parse LocalTZA p] else [].
Proof.
  rewrite array_item_to_value.
  destruct (get_to_value p)
    as (Hvalue & Hlabel & Hdate & Hopen & Hhigh & Hlow & Hclose & Habsent).
  repeat match goal with
    | H : Forall _ (_ :: _) |- _ => inversion H; subst; clear H
    end.
  unfold item_skipped, item_value, object_point, item_label, item_date,
    number_field, kept_again, seen_again.
  rewrite Hvalue, Hlabel, Hdate, Hopen, Hhigh, Hlow, Hclose, H1, H2, H3, H4,
    H5, H6, H7.
  destruct p as [v l d o h lo c].
  cbn [value label date open high low close].
  destruct l, d, o, h, lo, c;
    cbn [as_number as_string ToBoolean negb andb orb];
    destruct (Num.is_zero v); destruct (Num.isNaN v);
    cbn [negb andb orb];
    try reflexivity;
    match goal with
    | |- context [Num.isNaN ?c] =>
        destruct (Num.isNaN c); destruct (Num.is_zero c); reflexivity
    end.
Qed.
Lemma array_loop_again (points : list ChartDataPoint) :
  forall i,
    loop (map to_value points) i []
    = map (seen_again Date_parse LocalTZA) (filter kept_again points).
Proof.
  induction points as [|p rest IH]; intros i.
  - reflexivity.
  - cbn [map filter]. rewrite array_loop_cons, array_item_again, IH.
    destruct (kept_again p); reflexivity.
Qed.

Lemma normalize_to_array (points : list ChartDataPoint) :
  normalize (to_array points)
  = match map (seen_again Date_parse LocalTZA) (filter kept_again points) with
    | [] => Throw (match points with
                   | [] => not_a_series
                   | _ :: _ => nothing_numeric
                   end)
    | p :: rest => Return (p :: rest)
    end.
Proof.
  unfold to_array. rewrite normalize_array, array_loop_again, length_map.
  destruct points as [|p0 rest0]; [reflexivity|].
  cbn [List.length Nat.eqb].
  destruct (map _ (filter kept_again (p0 :: rest0))); reflexivity.
Qed.

(** What [normalize] returns has a label wherever it has a date. *)
Lemma array_item_labelled (item : JS.value) (i : nat) :
  Forall (fun p => seen_again Date_parse LocalTZA p = p)
    (array_item Date_parse LocalTZA item i []).
Proof.
  assert (Hobject : forall obj,
    Forall (fun p => seen_again Date_parse LocalTZA p = p)
      (if item_skipped obj (item_value obj) then []
       else push [] (object_point Date_parse LocalTZA obj (item_value obj)))).
  { intros obj. destruct (item_skipped obj (item_value obj)); repeat constructor.
    unfold seen_again, object_point, item_label, item_date.
    cbn [label date app].
    destruct (as_string (get obj "label")); [reflexivity|].
    destruct (as_string (get obj "report_period")); [reflexivity|].
    destruct (as_string (get obj "date")); [reflexivity|].
    repeat match goal with
      | |- context [match ?x with Some _ => _ | None => _ end] => destruct x
      end; reflexivity. }
  destruct item as [| |b|n|s|items|props]; unfold array_item.
  - constructor.
  - constructor.
  - destruct b; constructor.
  - repeat constructor.
  - destruct (Num.isNaN (Num.parseFloat s)); repeat constructor.
  - apply (Hobject (VArray items)).
  - apply (Hobject (VObject props)).
Qed.

Lemma array_loop_labelled (items : list JS.value) :
  forall i, Forall (fun p => seen_again Date_parse LocalTZA p = p)
              (loop items i []).
Proof.
  induction items as [|item rest IH]; intros i.
  - constructor.
  - rewrite array_loop_cons. apply Forall_app. split.
    + apply array_item_labelled.
    + apply IH.
Qed.

Lemma collect_labelled (entries : list (string * JS.value)) :
  Forall (fun p => seen_again Date_parse LocalTZA p = p) (collect entries).
Proof.
  unfold collect. induction entries as [|entry rest IH]; cbn [flat_map].
  - constructor.
  - apply Forall_app. split; [|exact IH].
    unfold entry_points. destruct (Num.isNaN _); repeat constructor.
Qed.

Lemma map_seen_again (points : list ChartDataPoint) :
  Forall (fun p => seen_again Date_parse LocalTZA p = p) points ->
  map (seen_again Date_parse LocalTZA) points = points.
Proof.
  induction 1 as [|p rest Hp _ IH]; cbn [map]; [reflexivity|].
  now rewrite Hp, IH.
Qed.

(** X6: an array of Observations given to [normalize] comes back without
    those whose value is a zero and whose [close] is not truthy; the others
    are unchanged, but for a label made from the date where there was a date
    and no label.  It is an error when none is left. *)
Theorem observations_fed_back (points : list ChartDataPoint) :
  normalize (to_array points)
  = match map (seen_again Date_parse LocalTZA) (filter kept_again points) with
    | [] => Throw (match points with
                   | [] => not_a_series
                   | _ :: _ => nothing_numeric
                   end)
    | p :: rest => Return (p :: rest)
    end.
Proof. exact (normalize_to_array points). Qed.

(** X7: what [normalize] returned, given to it again, comes back as it is
    without the Observations whose value is a zero and whose [close] is not
    truthy, and is refused when all are such. *)
Theorem output_fed_back (data : JS.value) (r : list ChartDataPoint) :
  normalize data = Return r ->
  normalize (to_array r)
  = match filter kept_again r with
    | [] => Throw nothing_numeric
    | p :: rest => Return (p :: rest)
    end.
Proof.
  intros Hreturn.
  assert (Hlabelled : Forall (fun p => seen_again Date_parse LocalTZA p = p) r).
  { destruct (normalize_returns Date_parse LocalTZA data r Hreturn)
      as [[items [-> ->]] | Hformat].
    - apply array_loop_labelled.
    - destruct (object_format_cases data) as [Hnext | [[e He] | [es Hes]]];
        rewrite Hformat in *; try discriminate.
      injection Hes as ->. apply collect_labelled. }
  pose proof (normalize_returns_nonempty data r Hreturn) as Hnonempty.
  rewrite normalize_to_array, map_seen_again.
  - destruct r; [contradiction | reflexivity].
  - apply incl_Forall with (l1 := r); [|exact Hlabelled].
    intros p Hp. apply filter_In in Hp. tauto.
Qed.

End NormalizerShapes.

Lemma flat_map_entries_example :
  normalize_utc
    (VObject [("iPhone", VString "50.5"); ("note", VString "n/a");
              ("7", VNumber 3%float); ("Services", VNumber 20%float)])
  = Return [value_label 3%float "7"; value_label 50.5%float "iPhone";
            value_label 20%float "Services"]
  /\ normalize_utc
       (VObject [("a", VNumber 1%float);
                 ("b", VObject [("toString", VNumber 1%float)])])
     = Throw conversion_error.
Proof.
  unfold normalize_utc. split.
  - rewrite (flat_map_entries JSDate.Date_parse_iso JSDate.LocalTZA_utc
               [("iPhone", VString "50.5"); ("note", VString "n/a");
                ("7", VNumber 3%float); ("Services", VNumber 20%float)]
               ("7", VNumber 3%float)
               [("iPhone", VString "50.5"); ("note", VString "n/a");
                ("Services", VNumber 20%float)]
               eq_refl eq_refl).
    vm_compute. reflexivity.
  - rewrite (flat_map_entries JSDate.Date_parse_iso JSDate.LocalTZA_utc
               [("a", VNumber 1%float);
                ("b", VObject [("toString", VNumber 1%float)])]
               ("a", VNumber 1%float)
               [("b", VObject [("toString", VNumber 1%float)])]
               eq_refl eq_refl).
    vm_compute. reflexivity.
Defined.

Lemma flat_number_map_example :
  normalize_utc (number_map [("iPhone", 50%float); ("Services", 0%float)])
  = Return [value_label 50%float "iPhone"; value_label 0%float "Services"].
Proof.
  apply (flat_number_map JSDate.Date_parse_iso JSDate.LocalTZA_utc
           [("iPhone", 50%float); ("Services", 0%float)]).
  - discriminate.
  - intros entry [<- | [<- | []]]; split; reflexivity.
Defined.

Lemma success_shape_example :
  [value_label 5%float "Point 2"] <> []
  /\ (isArray (VArray [VString "abc"; VNumber 5%float]) = true
      \/ exists props, VArray [VString "abc"; VNumber 5%float] = VObject props).
Proof.
  apply (success_shape JSDate.Date_parse_iso JSDate.LocalTZA_utc
           (VArray [VString "abc"; VNumber 5%float])).
  vm_compute. reflexivity.
Defined.

Lemma array_result_bounded_example :
  (List.length [value_label 5%float "Point 2"]
   <= List.length [VString "abc"; VNumber 5%float])%nat.
Proof.
  apply (array_result_bounded JSDate.Date_parse_iso JSDate.LocalTZA_utc
           [VString "abc"; VNumber 5%float]).
  vm_compute. reflexivity.
Defined.

Lemma thrown_errors_example :
  normalize_utc (VObject [("2024", VObject []); ("2025", VNull)])
  = Throw (TypeError "Cannot convert undefined or null to object")
  /\ normalize_utc
       (VObject [("a", VNumber 1%float);
                 ("b", VObject [("toString", VNumber 1%float)])])
     = Throw conversion_error
  /\ (conversion_error = required
      \/ conversion_error = not_a_series
      \/ conversion_error = nothing_numeric
      \/ ((exists message, conversion_error = TypeError message)
          /\ exists props first rest,
               VObject [("a", VNumber 1%float);
                        ("b", VObject [("toString", VNumber 1%float)])]
               = VObject props
               /\ own_entries props = first :: rest
               /\ ((first_is_numeric (snd first) = true
                    /\ entries_convertible (first :: rest) = false)
                   \/ (exists inner, snd first = VObject inner)
                      /\ (snd (last rest first) = VNull
                          \/ snd (last rest first) = VUndefined
                          \/ exists segments,
                               Object_entries (snd (last rest first))
                               = Return segments
                               /\ entries_convertible segments = false)))).
Proof.
  split; [vm_compute; reflexivity|]. split; [vm_compute; reflexivity|].
  apply (thrown_errors JSDate.Date_parse_iso JSDate.LocalTZA_utc).
  vm_compute. reflexivity.
Defined.

Lemma output_fed_back_example :
  normalize_utc (VArray [VNumber 0%float; VNumber 7%float])
  = Return [value_label 0%float "Point 1"; value_label 7%float "Point 2"]
  /\ normalize_utc
       (to_array [value_label 0%float "Point 1"; value_label 7%float "Point 2"])
     = Return [value_label 7%float "Point 2"].
Proof.
  split; [vm_compute; reflexivity|].
  unfold normalize_utc.
  rewrite (output_fed_back JSDate.Date_parse_iso JSDate.LocalTZA_utc
             (VArray [VNumber 0%float; VNumber 7%float])
             [value_label 0%float "Point 1"; value_label 7%float "Point 2"]).
  - reflexivity.
  - vm_compute. reflexivity.
Defined.

(** *** The name of the chart file *)

Import Generator.

Lemma lower_not_upper (c : ascii) :
  is_lower_alnum c = true -> is_name_char c = true.
Proof. unfold is_name_char. now intros ->. Qed.

Lemma replace_runs_chars (s : string) :
  forall in_run,
    Forall (fun c => is_lower_alnum c = true \/ c = "_"%char)
      (list_ascii_of_string (replace_runs s in_run)).
Proof.
  induction s as [|c rest IH]; intros in_run; cbn [replace_runs].
  - constructor.
  - destruct (is_lower_alnum c) eqn:Hc.
    + constructor; [now left | apply IH].
    + destruct in_run; [apply IH|].
      constructor; [now right | apply IH].
Qed.

Lemma Forall_firstn {A : Type} (P : A -> Prop) (l : list A) :
  forall n, Forall P l -> Forall P (firstn n l).
Proof.
  induction l as [|x rest IH]; intros [|n] Hall; cbn; try constructor.
  - now inversion Hall.
  - apply IH. now inversion Hall.
Qed.

Lemma substring_prefix_chars (s : string) :
  forall n, list_ascii_of_string (substring 0 n s)
            = firstn n (list_ascii_of_string s).
Proof.
  induction s as [|c rest IH]; intros [|n]; cbn; try reflexivity.
  now rewrite IH.
Qed.

Lemma substring_prefix_length (s : string) :
  forall n, (String.length (substring 0 n s) <= n)%nat.
Proof.
  induction s as [|c rest IH]; intros [|n]; cbn; auto using le_0_n, le_n_S.
Qed.

Lemma replace_runs_nonempty (s : string) :
  s <> "" -> replace_runs s false <> "".
Proof.
  destruct s as [|c rest]; [contradiction|]. intros _. cbn [replace_runs].
  destruct (is_lower_alnum c); discriminate.
Qed.

Lemma toLowerCase_nonempty (s : string) : s <> "" -> toLowerCase s <> "".
Proof. destruct s; [contradiction | discriminate]. Qed.

Lemma title_or_chart_nonempty (title : option string) :
  title_or_chart title <> "".
Proof.
  unfold title_or_chart. destruct title as [t|]; [|discriminate].
  destruct (String.eqb t "") eqn:Ht; [discriminate|].
  now apply String.eqb_neq.
Qed.

Lemma safeTitle_chars (title : option string) :
  Forall (fun c => is_lower_alnum c = true \/ c = "_"%char)
    (list_ascii_of_string (safeTitle title)).
Proof.
  unfold safeTitle. rewrite substring_prefix_chars.
  apply Forall_firstn, replace_runs_chars.
Qed.

(** X8: the title part of a chart file name is never empty, has at most 30
    characters, and holds only lower-case letters, digits and underscores,
    whatever the title. *)
Theorem safeTitle_safe (title : option string) :
  safeTitle title <> ""
  /\ (String.length (safeTitle title) <= 30)%nat
  /\ Forall (fun c => is_lower_alnum c = true \/ c = "_"%char)
       (list_ascii_of_string (safeTitle title)).
Proof.
  unfold safeTitle. repeat apply conj.
  - pose proof (replace_runs_nonempty _
                  (toLowerCase_nonempty _ (title_or_chart_nonempty title))) as H.
    destruct (replace_runs (toLowerCase (title_or_chart title)) false);
      [contradiction | discriminate].
  - apply substring_prefix_length.
  - exact (safeTitle_chars title).
Qed.

Lemma chars_app (a b : string) :
  list_ascii_of_string (a ++ b)
  = list_ascii_of_string a ++ list_ascii_of_string b.
Proof.
  induction a as [|c rest IH]; cbn; [reflexivity | now rewrite IH].
Qed.

Lemma uint_digits (d : Decimal.uint) :
  Forall (fun c => is_lower_alnum c = true)
    (list_ascii_of_string (NilEmpty.string_of_uint d)).
Proof.
  induction d; cbn; constructor; try reflexivity; assumption.
Qed.

(** X9: the file name made from a title and the time, the time not being
    negative, holds only lower-case letters, digits, underscores and dots: no
    path separator and no quote. *)
Theorem default_filename_chars (title : option string) (timestamp : Z) :
  (0 <= timestamp)%Z ->
  Forall (fun c => is_name_char c = true)
    (list_ascii_of_string (default_filename title timestamp))
  /\ ~ In "/"%char (list_ascii_of_string (default_filename title timestamp))
  /\ ~ In (ascii_of_nat 34)
         (list_ascii_of_string (default_filename title timestamp)).
Proof.
  intros Hpositive.
  assert (Hchars : Forall (fun c => is_name_char c = true)
                     (list_ascii_of_string (default_filename title timestamp))).
  { unfold default_filename, integer_string.
    destruct (timestamp <? 0)%Z eqn:Hneg;
      [apply Z.ltb_lt, Z.lt_nge in Hneg; contradiction|].
    rewrite !chars_app.
    apply Forall_app; split; [|apply Forall_app; split; [|apply Forall_app; split]].
    - pose proof (safeTitle_chars title) as Hsafe.
      apply (Forall_impl _ (P := fun c => is_lower_alnum c = true \/ c = "_"%char));
        [|exact Hsafe].
      intros c [Hc | ->]; [now apply lower_not_upper | reflexivity].
    - constructor; [reflexivity | constructor].
    - apply (Forall_impl _ (P := fun c => is_lower_alnum c = true));
        [apply lower_not_upper | apply uint_digits].
    - cbn. repeat (constructor; [reflexivity|]). constructor. }
  repeat apply conj; [exact Hchars | |];
    intros Hin; rewrite Forall_forall in Hchars;
    apply Hchars in Hin; discriminate.
Qed.

Lemma default_filename_example :
  default_filename (Some "Apple Revenue (2024)!") 1705276800000
  = "apple_revenue_2024__1705276800000.html"
  /\ Forall (fun c => is_name_char c = true)
       (list_ascii_of_string
          (default_filename (Some "Apple Revenue (2024)!") 1705276800000)).
Proof.
  split; [vm_compute; reflexivity|].
  apply (default_filename_chars (Some "Apple Revenue (2024)!") 1705276800000).
  discriminate.
Defined.

(** *** The converters of prices and metrics *)

Import Coerce Convert.

Lemma ToNumber_number_of (v : JS.value) :
  ToNumber v
  = if convertible v then Return (number_of v) else Throw conversion_error.
Proof.
  destruct v as [| |b|n|s|items|props]; try reflexivity;
    unfold ToNumber, number_of; rewrite ToString_text;
    match goal with |- context [convertible ?x] => destruct (convertible x) end;
    reflexivity.
Qed.

Lemma isNaN_number_of (v : JS.value) :
  isNaN v
  = if convertible v then Return (Num.isNaN (number_of v))
    else Throw conversion_error.
Proof.
  unfold isNaN. rewrite ToNumber_number_of. now destruct (convertible v).
Qed.

Lemma template_Q_text (quarter year : JS.value) :
  template_Q quarter year
  = if convertible quarter && convertible year
    then Return (VString ("Q" ++ text quarter ++ " " ++ text year))
    else Throw conversion_error.
Proof.
  unfold template_Q. rewrite !ToString_text.
  destruct (convertible quarter); [|reflexivity].
  now destruct (convertible year).
Qed.

(** A date that [formatDateLabel] fails on is an object, so truthy. *)
Lemma date_raises_truthy (date : JS.value) :
  date_raises date = true -> ToBoolean date = true /\ convertible date = false.
Proof.
  destruct date as [| |b|n|s|items|props]; try discriminate.
  cbn [date_raises ToBoolean convertible]. now intros ->.
Qed.

Section Converters.

Variable Date_parse : string -> JSDate.Date.
Variable LocalTZA : Z -> Z.

Local Notation "'prices_of'" := (pricesToChartData Date_parse LocalTZA).
Local Notation "'metrics_of'" := (metricsToChartData Date_parse LocalTZA).

Lemma new_Date_date_of (v : JS.value) :
  new_Date Date_parse v
  = if convertible v then Return (date_of Date_parse v)
    else Throw conversion_error.
Proof.
  destruct v as [| |b|n|s|items|props]; try reflexivity;
    unfold new_Date, date_of; rewrite ToString_text;
    match goal with |- context [convertible ?x] => destruct (convertible x) end;
    reflexivity.
Qed.

(** [formatDateLabel] on any value: the [catch] runs for an array or object
    that does not convert, and gives the start of the array, or fails. *)
Lemma formatDateLabel_of_label (v : JS.value) :
  formatDateLabel_of Date_parse LocalTZA v
  = if date_raises v then Throw (TypeError "dateStr.slice is not a function")
    else Return (date_label Date_parse LocalTZA v).
Proof.
  unfold formatDateLabel_of, date_label. rewrite new_Date_date_of.
  destruct v as [| |b|n|s|items|props]; try reflexivity.
  - cbn [date_raises]. destruct (convertible (VArray items)); reflexivity.
  - cbn [date_raises convertible].
    destruct (has_own_property props "toString"); reflexivity.
Qed.

(** On a string it is the [formatDateLabel] of the normaliser. *)
Lemma date_label_string (s : string) :
  date_label Date_parse LocalTZA (VString s)
  = VString (formatDateLabel Date_parse LocalTZA s).
Proof. reflexivity. Qed.

Lemma price_turn_spec (valueField : string) (price : JS.value)
    (chartData : list DataPoint) :
  price_turn Date_parse LocalTZA valueField price chartData
  = if is_nullish price
    then Throw (TypeError "Cannot read properties of undefined or null")
    else if negb (convertible (own price valueField))
    then Throw conversion_error
    else if has_number price valueField && date_raises (price_date price)
    then Throw (TypeError "dateStr.slice is not a function")
    else Return (chartData
                 ++ if has_number price valueField
                    then [price_point Date_parse LocalTZA valueField price]
                    else []).
Proof.
  unfold price_turn, member, has_number, price_point. cbv zeta.
  change (or_else (or_else (own price "date") (own price "timestamp"))
            (VString "")) with (price_date price).
  destruct (is_nullish price); [reflexivity|].
  rewrite isNaN_number_of, formatDateLabel_of_label.
  destruct (is_undefined (own price valueField)) eqn:Hundefined.
  - destruct (own price valueField); try discriminate.
    cbn [convertible negb orb andb]. now rewrite app_nil_r.
  - destruct (convertible (own price valueField)); cbn [negb orb]; [|reflexivity].
    destruct (Num.isNaN (number_of (own price valueField))); cbn [negb andb].
    + now rewrite app_nil_r.
    + destruct (date_raises (price_date price)) eqn:Hraises.
      * apply date_raises_truthy in Hraises as [-> _]. reflexivity.
      * destruct (ToBoolean (price_date price)); reflexivity.
Qed.

Lemma price_turn_returns (valueField : string) (price : JS.value)
    (chartData : list DataPoint) :
  price_raises valueField price = false ->
  price_turn Date_parse LocalTZA valueField price chartData
  = Return (chartData
            ++ if has_number price valueField
               then [price_point Date_parse LocalTZA valueField price]
               else []).
Proof.
  unfold price_raises. intros Hraises.
  apply orb_false_elim in Hraises as [Hraises Hdate].
  apply orb_false_elim in Hraises as [Hnullish Hvalue].
  now rewrite price_turn_spec, Hnullish, Hvalue, Hdate.
Qed.

Lemma price_turn_throws (valueField : string) (price : JS.value)
    (chartData : list DataPoint) :
  price_raises valueField price = true ->
  exists e, price_turn Date_parse LocalTZA valueField price chartData = Throw e.
Proof.
  unfold price_raises. intros Hraises. rewrite price_turn_spec.
  destruct (is_nullish price); [now eexists|].
  destruct (negb (convertible (own price valueField))); [now eexists|].
  cbn [orb] in Hraises. rewrite Hraises. now eexists.
Qed.

(** The label of a metric: the branches of lines 56-64. *)
Lemma metric_label_text (m : JS.value) :
  metric_label Date_parse LocalTZA m (metric_date m)
  = if label_raises m
    then Throw (if ToBoolean (metric_date m)
                then TypeError "dateStr.slice is not a function"
                else conversion_error)
    else Return (metric_text Date_parse LocalTZA m).
Proof.
  unfold metric_label, label_raises, metric_text.
  rewrite formatDateLabel_of_label, !template_Q_text, ToString_text.
  destruct (ToBoolean (metric_date m)).
  - destruct (date_raises (metric_date m)); reflexivity.
  - destruct (ToBoolean (own m "fiscal_year") && ToBoolean (own m "quarter")).
    + destruct (convertible (own m "quarter") && convertible (own m "fiscal_year"));
        reflexivity.
    + destruct (ToBoolean (own m "year") && ToBoolean (own m "quarter")).
      * destruct (convertible (own m "quarter") && convertible (own m "year"));
          reflexivity.
      * destruct (ToBoolean (own m "fiscal_year") || ToBoolean (own m "year"));
          [|reflexivity].
        destruct (convertible (or_else (own m "fiscal_year") (own m "year")));
          reflexivity.
Qed.

Lemma metric_turn_spec (metricField : string) (metric : JS.value)
    (chartData : list DataPoint) :
  metric_turn Date_parse LocalTZA metricField metric chartData
  = if is_nullish metric
    then Throw (TypeError "Cannot read properties of undefined or null")
    else if negb (convertible (own metric metricField))
    then Throw conversion_error
    else if has_number metric metricField && label_raises metric
    then Throw (if ToBoolean (metric_date metric)
                then TypeError "dateStr.slice is not a function"
                else conversion_error)
    else Return (chartData
                 ++ if has_number metric metricField
                    then [metric_point Date_parse LocalTZA metricField metric]
                    else []).
Proof.
  unfold metric_turn, member, has_number, metric_point. cbv zeta.
  change (or_else (or_else (own metric "report_period") (own metric "date"))
            (VString "")) with (metric_date metric).
  destruct (is_nullish metric); [reflexivity|].
  rewrite isNaN_number_of, metric_label_text.
  destruct (is_undefined (own metric metricField)) eqn:Hundefined.
  - destruct (own metric metricField); try discriminate.
    cbn [convertible negb orb andb]. now rewrite app_nil_r.
  - destruct (convertible (own metric metricField)); cbn [negb orb];
      [|reflexivity].
    destruct (Num.isNaN (number_of (own metric metricField))); cbn [negb andb].
    + now rewrite app_nil_r.
    + destruct (label_raises metric); reflexivity.
Qed.

Lemma metric_turn_returns (metricField : string) (metric : JS.value)
    (chartData : list DataPoint) :
  metric_raises metricField metric = false ->
  metric_turn Date_parse LocalTZA metricField metric chartData
  = Return (chartData
            ++ if has_number metric metricField
               then [metric_point Date_parse LocalTZA metricField metric]
               else []).
Proof.
  unfold metric_raises. intros Hraises.
  apply orb_false_elim in Hraises as [Hraises Hlabel].
  apply orb_false_elim in Hraises as [Hnullish Hvalue].
  now rewrite metric_turn_spec, Hnullish, Hvalue, Hlabel.
Qed.

Lemma metric_turn_throws (metricField : string) (metric : JS.value)
    (chartData : list DataPoint) :
  metric_raises metricField metric = true ->
  exists e,
    metric_turn Date_parse LocalTZA metricField metric chartData = Throw e.
Proof.
  unfold metric_raises. intros Hraises. rewrite metric_turn_spec.
  destruct (is_nullish metric); [now eexists|].
  destruct (negb (convertible (own metric metricField))); [now eexists|].
  cbn [orb] in Hraises. rewrite Hraises. now eexists.
Qed.

Lemma prices_loop_returns (valueField : string) (items : list JS.value) :
  forall chartData,
    existsb (price_raises valueField) items = false ->
    prices_loop Date_parse LocalTZA valueField items chartData
    = Return (chartData
              ++ map (price_point Date_parse LocalTZA valueField)
                   (filter (fun price => has_number price valueField) items)).
Proof.
  induction items as [|price rest IH]; intros chartData Hnone; cbn [prices_loop].
  - now rewrite app_nil_r.
  - cbn [existsb] in Hnone. apply orb_false_elim in Hnone as [Hprice Hrest].
    rewrite (price_turn_returns _ _ _ Hprice), (IH _ Hrest). cbn [filter].
    destruct (has_number price valueField); cbn [map];
      now rewrite <- app_assoc.
Qed.

Lemma prices_loop_throws (valueField : string) (items : list JS.value) :
  forall chartData,
    existsb (price_raises valueField) items = true ->
    exists e,
      prices_loop Date_parse LocalTZA valueField items chartData = Throw e.
Proof.
  induction items as [|price rest IH]; intros chartData Hsome; cbn [prices_loop].
  - discriminate.
  - cbn [existsb] in Hsome.
    destruct (price_raises valueField price) eqn:Hprice.
    + destruct (price_turn_throws valueField price chartData Hprice) as [e ->].
      now exists e.
    + rewrite (price_turn_returns _ _ _ Hprice). now apply IH.
Qed.

Lemma metrics_loop_returns (metricField : string) (items : list JS.value) :
  forall chartData,
    existsb (metric_raises metricField) items = false ->
    metrics_loop Date_parse LocalTZA metricField items chartData
    = Return (chartData
              ++ map (metric_point Date_parse LocalTZA metricField)
                   (filter (fun metric => has_number metric metricField) items)).
Proof.
  induction items as [|metric rest IH]; intros chartData Hnone; cbn [metrics_loop].
  - now rewrite app_nil_r.
  - cbn [existsb] in Hnone. apply orb_false_elim in Hnone as [Hmetric Hrest].
    rewrite (metric_turn_returns _ _ _ Hmetric), (IH _ Hrest). cbn [filter].
    destruct (has_number metric metricField); cbn [map];
      now rewrite <- app_assoc.
Qed.

Lemma metrics_loop_throws (metricField : string) (items : list JS.value) :
  forall chartData,
    existsb (metric_raises metricField) items = true ->
    exists e,
      metrics_loop Date_parse LocalTZA metricField items chartData = Throw e.
Proof.
  induction items as [|metric rest IH]; intros chartData Hsome; cbn [metrics_loop].
  - discriminate.
  - cbn [existsb] in Hsome.
    destruct (metric_raises metricField metric) eqn:Hmetric.
    + destruct (metric_turn_throws metricField metric chartData Hmetric)
        as [e ->].
      now exists e.
    + rewrite (metric_turn_returns _ _ _ Hmetric). now apply IH.
Qed.

(** X10: on an array with no element it fails on ([price_raises]),
    [pricesToChartData] returns, in the order of the array, one point for each
    element whose field is neither undefined nor NaN as a number: the point
    holds the field as it is, the element's date or timestamp, and the label
    of that date.  The field is [close] when none is named; it is not
    [__proto__], which every value inherits. *)
Theorem prices_points (items : list JS.value) (valueField : option string) :
  String.eqb (field_or_close valueField) "__proto__" = false ->
  existsb (price_raises (field_or_close valueField)) items = false ->
  prices_of (VArray items) valueField
  = Return (map (price_point Date_parse LocalTZA (field_or_close valueField))
              (filter (fun price => has_number price (field_or_close valueField))
                 items)).
Proof.
  intros _ Hnone.
  apply (prices_loop_returns (field_or_close valueField) items [] Hnone).
Qed.

(** X11: [pricesToChartData] throws exactly when it is given an array with
    an element it fails on: [null] or [undefined]; an element whose field is
    an object with an own [toString], or an array that holds one, which
    [isNaN] cannot convert; an element that is kept and whose date is an
    object with an own [toString].  What is not an array gives the empty
    sequence. *)
Theorem prices_throws (prices : JS.value) (valueField : option string) :
  ((exists e, prices_of prices valueField = Throw e)
   <-> exists items,
         prices = VArray items
         /\ existsb (price_raises (field_or_close valueField)) items = true)
  /\ (isArray prices = false -> prices_of prices valueField = Return []).
Proof.
  split.
  - split.
    + intros [e Hthrow]. destruct prices as [| |b|n|s|items|props];
        try discriminate.
      exists items. split; [reflexivity|].
      destruct (existsb (price_raises (field_or_close valueField)) items)
        eqn:Hsome; [reflexivity|].
      unfold pricesToChartData in Hthrow.
      fold (field_or_close valueField) in Hthrow.
      now rewrite (prices_loop_returns _ items [] Hsome) in Hthrow.
    + intros [items [-> Hsome]].
      apply (prices_loop_throws _ items [] Hsome).
  - destruct prices; try reflexivity. discriminate.
Qed.

(** X12: on an array with no element it fails on ([metric_raises]),
    [metricsToChartData] returns, in the order of the array, one point for
    each element whose field is neither undefined nor NaN as a number.  The
    field is not [__proto__], which every value inherits. *)
Theorem metrics_points (items : list JS.value) (metricField : string) :
  String.eqb metricField "__proto__" = false ->
  existsb (metric_raises metricField) items = false ->
  metrics_of (VArray items) metricField
  = Return (map (metric_point Date_parse LocalTZA metricField)
              (filter (fun metric => has_number metric metricField) items)).
Proof.
  intros _ Hnone. apply (metrics_loop_returns metricField items [] Hnone).
Qed.

(** X13: [metricsToChartData] throws exactly when it is given an array with
    an element it fails on: [null] or [undefined]; an element whose field
    [isNaN] cannot convert; an element that is kept and whose label cannot be
    made, its date being an object with an own [toString], or the year or
    quarter that would be printed not converting to a string.  What is not
    an array gives the empty sequence. *)
Theorem metrics_throws (metrics : JS.value) (metricField : string) :
  ((exists e, metrics_of metrics metricField = Throw e)
   <-> exists items,
         metrics = VArray items
         /\ existsb (metric_raises metricField) items = true)
  /\ (isArray metrics = false -> metrics_of metrics metricField = Return []).
Proof.
  split.
  - split.
    + intros [e Hthrow]. destruct metrics as [| |b|n|s|items|props];
        try discriminate.
      exists items. split; [reflexivity|].
      destruct (existsb (metric_raises metricField) items) eqn:Hsome;
        [reflexivity|].
      unfold metricsToChartData in Hthrow.
      now rewrite (metrics_loop_returns _ items [] Hsome) in Hthrow.
    + intros [items [-> Hsome]].
      apply (metrics_loop_throws _ items [] Hsome).
  - destruct metrics; try reflexivity. discriminate.
Qed.

Lemma price_date_falsy (price : JS.value) :
  ToBoolean (price_date price) = false -> price_date price = VString "".
Proof.
  unfold price_date, or_else.
  destruct (ToBoolean (if ToBoolean (own price "date") then own price "date"
                       else own price "timestamp")) eqn:Hdate.
  - intros H. congruence.
  - reflexivity.
Qed.

(** The label of a date that is truthy and does not make [formatDateLabel]
    fail is never undefined. *)
Lemma date_label_defined (date : JS.value) :
  date_raises date = false ->
  date_label Date_parse LocalTZA date <> VUndefined.
Proof.
  unfold date_label. intros Hraises.
  destruct (convertible date) eqn:Hconvertible; [discriminate|].
  destruct date as [| |b|n|s|items|props]; try discriminate.
  cbn [date_raises convertible] in *. now rewrite Hraises in Hconvertible.
Qed.

(** A point of [pricesToChartData]. *)
Lemma price_point_invariant (valueField : string) (price : JS.value) :
  price_raises valueField price = false ->
  has_number price valueField = true ->
  let p := price_point Date_parse LocalTZA valueField price in
  is_undefined (point_value p) = false
  /\ isNaN (point_value p) = Return false
  /\ (point_date p = VString "" \/ ToBoolean (point_date p) = true)
  /\ (point_label p = VUndefined <-> point_date p = VString "").
Proof.
  unfold price_raises. intros Hraises Hnumber. rewrite Hnumber in Hraises.
  apply orb_false_elim in Hraises as [Hraises Hdate].
  apply orb_false_elim in Hraises as [_ Hvalue].
  apply negb_false_iff in Hvalue. cbn [andb] in Hdate.
  unfold has_number in Hnumber. apply negb_true_iff, orb_false_elim in Hnumber.
  destruct Hnumber as [Hdefined Hnumber].
  unfold price_point. cbn [point_value point_label point_date].
  repeat apply conj.
  - exact Hdefined.
  - now rewrite isNaN_number_of, Hvalue, Hnumber.
  - destruct (ToBoolean (price_date price)) eqn:Htruthy; [now right|].
    left. now apply price_date_falsy.
  - destruct (ToBoolean (price_date price)) eqn:Htruthy.
    + intros Hlabel. now apply date_label_defined in Hlabel.
    + intros _. now apply price_date_falsy.
  - destruct (ToBoolean (price_date price)) eqn:Htruthy; [|reflexivity].
    intros Hempty. rewrite Hempty in Htruthy. discriminate.
Qed.

(** X14: every point [pricesToChartData] returns has a value that is not
    undefined and not NaN as a number, a date that is truthy or the empty
    string, and a label exactly when the date is not the empty string. *)
Theorem prices_invariant (prices : JS.value) (valueField : option string)
    (r : list DataPoint) :
  prices_of prices valueField = Return r ->
  Forall (fun p =>
            is_undefined (point_value p) = false
            /\ isNaN (point_value p) = Return false
            /\ (point_date p = VString "" \/ ToBoolean (point_date p) = true)
            /\ (point_label p = VUndefined <-> point_date p = VString ""))
    r.
Proof.
  intros Hreturn. destruct prices as [| |b|n|s|items|props];
    try (injection Hreturn as <-; constructor).
  unfold pricesToChartData in Hreturn.
  assert (Hinvariant : forall items chartData r,
    prices_loop Date_parse LocalTZA (field_or_close valueField) items chartData
    = Return r ->
    exists points,
      r = chartData ++ points
      /\ Forall (fun p =>
                   is_undefined (point_value p) = false
                   /\ isNaN (point_value p) = Return false
                   /\ (point_date p = VString ""
                       \/ ToBoolean (point_date p) = true)
                   /\ (point_label p = VUndefined <-> point_date p = VString ""))
           points).
  { clear items r Hreturn.
    induction items as [|price rest IH]; intros chartData r; cbn [prices_loop].
    - intros Heq. injection Heq as <-. exists []. now rewrite app_nil_r.
    - destruct (price_raises (field_or_close valueField) price) eqn:Hraises.
      + destruct (price_turn_throws _ price chartData Hraises) as [e ->].
        discriminate.
      + rewrite (price_turn_returns _ _ _ Hraises). intros Hrest.
        destruct (IH _ _ Hrest) as (points & -> & Hpoints).
        destruct (has_number price (field_or_close valueField)) eqn:Hnumber.
        * eexists. rewrite <- app_assoc. split; [reflexivity|].
          constructor; [|exact Hpoints].
          exact (price_point_invariant _ price Hraises Hnumber).
        * exists points. now rewrite app_nil_r. }
  destruct (Hinvariant items [] r Hreturn) as (points & -> & Hpoints).
  exact Hpoints.
Qed.

(** X15: a metric that is kept, and on which [metricsToChartData] does not
    fail, has no label exactly when its [report_period], [date],
    [fiscal_year] and [year] are all falsy (a quarter alone gives none), and
    has no date exactly when the first two are. *)
Theorem metric_unlabelled (metric : JS.value) (metricField : string) :
  metric_raises metricField metric = false ->
  has_number metric metricField = true ->
  exists p,
    metrics_of (VArray [metric]) metricField = Return [p]
    /\ (point_label p = VUndefined
        <-> ToBoolean (own metric "report_period") = false
            /\ ToBoolean (own metric "date") = false
            /\ ToBoolean (own metric "fiscal_year") = false
            /\ ToBoolean (own metric "year") = false)
    /\ (point_date p = VUndefined
        <-> ToBoolean (own metric "report_period") = false
            /\ ToBoolean (own metric "date") = false).
Proof.
  intros Hraises Hnumber.
  exists (metric_point Date_parse LocalTZA metricField metric). split.
  - unfold metricsToChartData. cbn [metrics_loop].
    now rewrite (metric_turn_returns _ _ _ Hraises), Hnumber.
  - assert (Hlabel : label_raises metric = false).
    { unfold metric_raises in Hraises. rewrite Hnumber in Hraises.
      apply orb_false_elim in Hraises as [_ Hlabel]. exact Hlabel. }
    assert (Hdate : ToBoolean (metric_date metric) = true ->
                    date_label Date_parse LocalTZA (metric_date metric)
                    <> VUndefined).
    { intros Htruthy. apply date_label_defined.
      unfold label_raises in Hlabel. now rewrite Htruthy in Hlabel. }
    assert (Htruthy : ToBoolean (metric_date metric)
                      = ToBoolean (own metric "report_period")
                        || ToBoolean (own metric "date")).
    { unfold metric_date, or_else.
      destruct (ToBoolean (own metric "report_period")) eqn:Hperiod;
        rewrite ?Hperiod; [reflexivity|].
      destruct (ToBoolean (own metric "date")) eqn:Hown; rewrite ?Hown;
        reflexivity. }
    unfold metric_point, metric_text. cbn [point_label point_date].
    split.
    + destruct (ToBoolean (metric_date metric)) eqn:Hmetric.
      * split; [intros Hnone; now apply Hdate in Hnone|].
        intros (Hperiod & Hown & _). rewrite Hperiod, Hown in Htruthy.
        discriminate.
      * symmetry in Htruthy. apply orb_false_elim in Htruthy as [-> ->].
        destruct (ToBoolean (own metric "fiscal_year"));
          destruct (ToBoolean (own metric "year"));
          destruct (ToBoolean (own metric "quarter"));
          cbn [andb orb]; split; try discriminate; try tauto;
          intros (_ & _ & ? & ?); discriminate.
    + unfold or_else at 1.
      destruct (ToBoolean (metric_date metric)) eqn:Hmetric.
      * split.
        -- intros Hundefined. rewrite Hundefined in Hmetric. discriminate.
        -- intros (Hperiod & Hown). rewrite Hperiod, Hown in Htruthy.
           discriminate.
      * symmetry in Htruthy. apply orb_false_elim in Htruthy as [-> ->].
        split; [now split | reflexivity].
Qed.

Lemma bar_fields (bar : JS.value) :
  is_bar bar = true ->
  exists c d,
    get bar "close" = VNumber c /\ get bar "date" = VString d
    /\ Num.isNaN c = false /\ Num.is_zero c = false /\ d <> ""
    /\ is_nullish bar = false /\ own bar "close" = VNumber c
    /\ own bar "date" = VString d
    /\ Forall (fun key => get bar key = VUndefined)
         ["value"; "net_income"; "total_revenue"; "revenue"; "label";
          "report_period"].
Proof.
  unfold is_bar. destruct bar as [| |b|n|s|items|props]; try discriminate.
  destruct (get (VObject props) "close") as [| |b|c|s|items|inner] eqn:Hclose;
    try discriminate.
  destruct (get (VObject props) "date") as [| |b|n|d|items|inner] eqn:Hdate;
    try discriminate.
  cbn [as_number as_string]. intros Hbar.
  apply andb_prop in Hbar as [Hbar Habsent].
  apply andb_prop in Hbar as [Hbar Hd].
  apply andb_prop in Hbar as [Hnan Hzero].
  exists c, d. repeat apply conj; try reflexivity; try assumption.
  - now apply negb_true_iff in Hnan.
  - now apply negb_true_iff in Hzero.
  - apply negb_true_iff in Hd. now apply String.eqb_neq.
  - rewrite forallb_forall in Habsent. apply Forall_forall.
    intros key Hkey. specialize (Habsent key Hkey).
    destruct (get (VObject props) key); try discriminate. reflexivity.
Qed.

Lemma bar_point (bar : JS.value) (i : nat) :
  is_bar bar = true ->
  exists p,
    array_item Date_parse LocalTZA bar i [] = [p]
    /\ summary p = price_point Date_parse LocalTZA "close" bar
    /\ has_number bar "close" = true
    /\ price_raises "close" bar = false.
Proof.
  intros Hbar.
  destruct (bar_fields bar Hbar)
    as (c & d & Hclose & Hdate & Hnan & Hzero & Hd & Hobject & Hown & Hown_date
        & Habsent).
  repeat match goal with
    | H : Forall _ (_ :: _) |- _ => inversion H; subst; clear H
    end.
  assert (Hvalue : item_value bar = c).
  { unfold item_value.
    repeat match goal with H : get bar _ = _ |- _ => rewrite H end.
    reflexivity. }
  assert (Hprice_date : price_date bar = VString d).
  { unfold price_date, or_else. rewrite Hown_date. apply String.eqb_neq in Hd.
    repeat (cbn [ToBoolean negb]; rewrite ?Hd). reflexivity. }
  assert (Hnumber : has_number bar "close" = true).
  { unfold has_number. rewrite Hown. cbn [is_undefined orb number_of].
    now rewrite Hnan. }
  exists (object_point Date_parse LocalTZA bar c). repeat apply conj.
  - destruct bar as [| |b|n|s|items|props]; try discriminate.
    rewrite array_item_object, Hvalue. unfold item_skipped. now rewrite Hzero.
  - unfold summary, price_point, object_point, item_label, item_date.
    rewrite Hprice_date, date_label_string.
    cbn [Chart.value Chart.label Chart.date].
    repeat match goal with H : get bar _ = _ |- _ => rewrite H end.
    rewrite Hown. apply String.eqb_neq in Hd.
    cbn [as_string as_number ToBoolean negb]. now rewrite Hd.
  - exact Hnumber.
  - unfold price_raises. rewrite Hobject, Hown, Hprice_date, Hnumber.
    reflexivity.
Qed.

Lemma bars_loop (bars : list JS.value) :
  forall i,
    forallb is_bar bars = true ->
    existsb (price_raises "close") bars = false
    /\ map summary (array_loop Date_parse LocalTZA bars i [])
       = map (price_point Date_parse LocalTZA "close")
           (filter (fun price => has_number price "close") bars)
    /\ List.length (array_loop Date_parse LocalTZA bars i [])
       = List.length bars.
Proof.
  induction bars as [|bar rest IH]; intros i Hbars.
  - repeat split.
  - cbn [forallb] in Hbars. apply andb_prop in Hbars as [Hbar Hrest].
    destruct (bar_point bar i Hbar) as (p & Hitem & Hsummary & Hnumber & Hraises).
    destruct (IH (S i) Hrest) as (Hnone & Hloop & Hlength).
    rewrite array_loop_cons, Hitem. cbn [existsb filter app map List.length].
    rewrite Hraises, Hnumber, Hnone, Hsummary, Hloop, Hlength.
    repeat split.
Qed.

(** X16: on a non-empty array of price bars (objects with a [close] that is
    a number other than NaN and zero, a non-empty [date] string, and no
    [value], [net_income], [total_revenue], [revenue], [label] or
    [report_period]), [normalizeChartData] and [pricesToChartData] agree: one
    point per bar, with the same value, label and date. *)
Theorem bars_agree (bars : list JS.value) :
  bars <> [] ->
  forallb is_bar bars = true ->
  exists r,
    normalizeChartData Date_parse LocalTZA (VArray bars) = Return r
    /\ List.length r = List.length bars
    /\ prices_of (VArray bars) None = Return (map summary r).
Proof.
  intros Hnonempty Hbars.
  destruct (bars_loop bars 0 Hbars) as (Hnone & Hloop & Hlength).
  exists (array_loop Date_parse LocalTZA bars 0 []). repeat apply conj.
  - rewrite normalize_array, Hlength.
    destruct bars; [contradiction | reflexivity].
  - exact Hlength.
  - unfold pricesToChartData.
    rewrite (prices_loop_returns "close" bars [] Hnone), Hloop. reflexivity.
Qed.

End Converters.

Lemma prices_points_example :
  pricesToChartData_utc
    (VArray [VObject [("close", VNumber 5%float); ("date", VString "2024-01-15")];
             VObject [("open", VNumber 1%float)];
             VObject [("close", VString "12")];
             VObject [("close", VString "n/a")];
             VNumber 3%float])
    None
  = Return [mkDataPoint (VNumber 5%float) (VString "Jan 15")
              (VString "2024-01-15");
            mkDataPoint (VString "12") VUndefined (VString "")].
Proof.
  unfold pricesToChartData_utc.
  rewrite prices_points by reflexivity.
  vm_compute. reflexivity.
Defined.

Lemma prices_throws_example :
  (exists e,
     pricesToChartData_utc
       (VArray [VObject [("close", VNumber 5%float)]; VNull]) None
     = Throw e)
  /\ pricesToChartData_utc
       (VArray [VObject [("close", VObject [("toString", VNumber 1%float)])]])
       None
     = Throw conversion_error
  /\ pricesToChartData_utc
       (VArray [VObject [("close", VNumber 5%float);
                         ("date", VObject [("toString", VNumber 1%float)])]])
       None
     = Throw (TypeError "dateStr.slice is not a function")
  /\ pricesToChartData_utc
       (VArray [VObject [("close", VNumber 5%float);
                         ("date",
                          VArray [VObject [("toString", VNumber 1%float)]])]])
       None
     = Return [mkDataPoint (VNumber 5%float)
                 (VArray [VObject [("toString", VNumber 1%float)]])
                 (VArray [VObject [("toString", VNumber 1%float)]])].
Proof.
  split; [|repeat apply conj; vm_compute; reflexivity].
  apply (proj2 (proj1 (prices_throws JSDate.Date_parse_iso JSDate.LocalTZA_utc
                         (VArray [VObject [("close", VNumber 5%float)]; VNull])
                         None))).
  eexists. split; reflexivity.
Defined.

Lemma metrics_points_example :
  metricsToChartData_utc
    (VArray [VObject [("eps", VNumber 5%float);
                      ("report_period", VString "2024-03-31")];
             VObject [("revenue", VNumber 1%float)];
             VObject [("eps", VNumber 2%float); ("fiscal_year", VNumber 2024%float);
                      ("quarter", VNumber 2%float)]])
    "eps"
  = Return [mkDataPoint (VNumber 5%float) (VString "Mar 31")
              (VString "2024-03-31");
            mkDataPoint (VNumber 2%float) (VString "Q2 2024") VUndefined].
Proof.
  unfold metricsToChartData_utc.
  rewrite metrics_points by reflexivity.
  vm_compute. reflexivity.
Defined.

Lemma metrics_throws_example :
  (exists e,
     metricsToChartData_utc
       (VArray [VUndefined; VObject [("eps", VNumber 5%float)]]) "eps"
     = Throw e)
  /\ metricsToChartData_utc
       (VArray [VObject [("eps", VObject [("toString", VNumber 1%float)])]])
       "eps"
     = Throw conversion_error
  /\ metricsToChartData_utc
       (VArray [VObject [("eps", VNumber 1%float);
                         ("date", VObject [("toString", VNumber 1%float)])]])
       "eps"
     = Throw (TypeError "dateStr.slice is not a function")
  /\ metricsToChartData_utc
       (VArray [VObject [("eps", VNumber 1%float);
                         ("quarter", VNumber 2%float);
                         ("year", VObject [("toString", VNumber 1%float)])]])
       "eps"
     = Throw conversion_error.
Proof.
  split; [|repeat apply conj; vm_compute; reflexivity].
  apply (proj2 (proj1 (metrics_throws JSDate.Date_parse_iso JSDate.LocalTZA_utc
                         (VArray [VUndefined; VObject [("eps", VNumber 5%float)]])
                         "eps"))).
  eexists. split; reflexivity.
Defined.

Lemma prices_invariant_example :
  Forall (fun p =>
            is_undefined (point_value p) = false
            /\ isNaN (point_value p) = Return false
            /\ (point_date p = VString "" \/ ToBoolean (point_date p) = true)
            /\ (point_label p = VUndefined <-> point_date p = VString ""))
    [mkDataPoint (VNumber 5%float) (VString "Jan 15") (VString "2024-01-15");
     mkDataPoint (VString "12") VUndefined (VString "")].
Proof.
  apply (prices_invariant JSDate.Date_parse_iso JSDate.LocalTZA_utc
           (VArray [VObject [("close", VNumber 5%float);
                             ("date", VString "2024-01-15")];
                    VObject [("close", VString "12")]])
           None).
  vm_compute. reflexivity.
Defined.

Lemma metric_unlabelled_example :
  exists p,
    metricsToChartData_utc
      (VArray [VObject [("eps", VNumber 1%float); ("quarter", VNumber 3%float)]])
      "eps"
    = Return [p]
    /\ (point_label p = VUndefined
        <-> ToBoolean (own (VObject [("eps", VNumber 1%float);
                                     ("quarter", VNumber 3%float)])
                         "report_period") = false
            /\ ToBoolean (own (VObject [("eps", VNumber 1%float);
                                        ("quarter", VNumber 3%float)])
                            "date") = false
            /\ ToBoolean (own (VObject [("eps", VNumber 1%float);
                                        ("quarter", VNumber 3%float)])
                            "fiscal_year") = false
            /\ ToBoolean (own (VObject [("eps", VNumber 1%float);
                                        ("quarter", VNumber 3%float)])
                            "year") = false)
    /\ (point_date p = VUndefined
        <-> ToBoolean (own (VObject [("eps", VNumber 1%float);
                                     ("quarter", VNumber 3%float)])
                         "report_period") = false
            /\ ToBoolean (own (VObject [("eps", VNumber 1%float);
                                        ("quarter", VNumber 3%float)])
                            "date") = false).
Proof.
  apply (metric_unlabelled JSDate.Date_parse_iso JSDate.LocalTZA_utc
           (VObject [("eps", VNumber 1%float); ("quarter", VNumber 3%float)])
           "eps");
    reflexivity.
Defined.

Lemma bars_agree_example :
  exists r,
    normalize_utc
      (VArray [VObject [("date", VString "2024-01-15"); ("open", VNumber 4%float);
                        ("close", VNumber 5%float)];
               VObject [("date", VString "2024-01-16"); ("close", VNumber 6%float)]])
    = Return r
    /\ List.length r = 2
    /\ pricesToChartData_utc
         (VArray [VObject [("date", VString "2024-01-15"); ("open", VNumber 4%float);
                           ("close", VNumber 5%float)];
                  VObject [("date", VString "2024-01-16"); ("close", VNumber 6%float)]])
         None
       = Return (map summary r).
Proof.
  apply (bars_agree JSDate.Date_parse_iso JSDate.LocalTZA_utc
           [VObject [("date", VString "2024-01-15"); ("open", VNumber 4%float);
                     ("close", VNumber 5%float)];
            VObject [("date", VString "2024-01-16"); ("close", VNumber 6%float)]]).
  - discriminate.
  - reflexivity.
Defined.

(** *** The data of the chart *)

Import Config.

(** X17: a pie or doughnut chart has one dataset, whose colours are the first
    of six fixed ones: with more than six values the seventh and later have
    no colour.  The border colours are the same colours, opaque. *)
Theorem pie_colors (type : string) (values : list Num.number)
    (labels : list string) (yLabel : string) (data : list ChartDataPoint) :
  type = "pie" \/ type = "doughnut" ->
  exists dataset,
    datasets (getChartConfig type values labels yLabel data) = [dataset]
    /\ dataset_data dataset = map VNumber values
    /\ dataset_strings dataset "backgroundColor"
       = map VString (firstn (List.length values) colors)
    /\ dataset_strings dataset "borderColor"
       = map VString
           (firstn (List.length values)
              ["rgba(54, 162, 235, 1)"; "rgba(255, 99, 132, 1)";
               "rgba(75, 192, 192, 1)"; "rgba(255, 206, 86, 1)";
               "rgba(153, 102, 255, 1)"; "rgba(255, 159, 64, 1)"])
    /\ List.length (dataset_strings dataset "backgroundColor")
       = Nat.min (List.length values) 6
    /\ List.length (dataset_strings dataset "borderColor")
       = Nat.min (List.length values) 6.
Proof.
  intros Htype.
  assert (Hconfig : getChartConfig type values labels yLabel data
    = VObject
        [("labels", strings labels);
         ("datasets",
          VArray
            [VObject
               [("label", VString yLabel);
                ("data", numbers values);
                ("backgroundColor", strings (firstn (List.length values) colors));
                ("borderColor",
                 strings (map (replace_first "0.6" "1")
                            (firstn (List.length values) colors)));
                ("borderWidth", VNumber 2%float)]])]).
  { destruct Htype as [-> | ->]; reflexivity. }
  rewrite Hconfig. eexists. split; [reflexivity|].
  unfold dataset_data, dataset_strings, strings, numbers.
  change (get (VObject ?props) ?key) with (lookup key props).
  cbn [lookup String.eqb Ascii.eqb Bool.eqb].
  rewrite <- (firstn_map (replace_first "0.6" "1")).
  change (map (replace_first "0.6" "1") colors)
    with ["rgba(54, 162, 235, 1)"; "rgba(255, 99, 132, 1)";
          "rgba(75, 192, 192, 1)"; "rgba(255, 206, 86, 1)";
          "rgba(153, 102, 255, 1)"; "rgba(255, 159, 64, 1)"].
  rewrite !length_map, !length_firstn.
  repeat apply conj; reflexivity.
Qed.

Lemma pie_colors_example :
  exists dataset,
    datasets (getChartConfig "pie" [1; 2; 3; 4; 5; 6; 7; 8]%float [] "Value" [])
    = [dataset]
    /\ List.length (dataset_strings dataset "backgroundColor") = 6.
Proof.
  destruct (pie_colors "pie" [1; 2; 3; 4; 5; 6; 7; 8]%float [] "Value" []
              (or_introl eq_refl))
    as (dataset & Hdatasets & _ & _ & _ & Hlength & _).
  exists dataset. split; [exact Hdatasets | exact Hlength].
Defined.

Set Warnings "-inexact-float".

Lemma ohlcData_aligned (points : list ChartDataPoint) :
  forall before : list Num.number,
    ohlcData points (before ++ map value points) (List.length before)
    = map (fun d =>
             {| o := VNumber match open d with
                             | Some x => x
                             | None => (value d * 0.99)%float
                             end;
                h := VNumber match high d with
                             | Some x => x
                             | None => (value d * 1.01)%float
                             end;
                l := VNumber match low d with
                             | Some x => x
                             | None => (value d * 0.98)%float
                             end;
                c := VNumber match close d with
                             | Some x => x
                             | None => value d
                             end |})
        points.
Proof.
  induction points as [|d rest IH]; intros before.
  - reflexivity.
  - cbn [ohlcData map]. unfold at_index.
    rewrite nth_error_app2 by apply le_n. rewrite Nat.sub_diag. cbn [nth_error].
    f_equal.
    + unfold number_or, times.
      destruct (open d), (high d), (low d), (close d); reflexivity.
    + specialize (IH (before ++ [value d])).
      rewrite <- app_assoc, length_app in IH. cbn [app List.length] in IH.
      rewrite Nat.add_1_r in IH. exact IH.
Qed.

(** X18: the candlestick chart of [generateChartHTML] has the four datasets
    High, Open, Close and Low, each with one number per Observation: the
    Observation's own high, open, close or low, and where it has none, 101%,
    99%, 100% and 98% of its value. *)
Theorem candlestick_data (options : ChartOptions) :
  type options = Some "candlestick" ->
  map (fun dataset => (get dataset "label", dataset_data dataset))
    (datasets (chartData options))
  = [(VString "High",
      map (fun d => VNumber match high d with
                            | Some x => x
                            | None => (value d * 1.01)%float
                            end) (data options));
     (VString "Open",
      map (fun d => VNumber match open d with
                            | Some x => x
                            | None => (value d * 0.99)%float
                            end) (data options));
     (VString "Close",
      map (fun d => VNumber match close d with
                            | Some x => x
                            | None => value d
                            end) (data options));
     (VString "Low",
      map (fun d => VNumber match low d with
                            | Some x => x
                            | None => (value d * 0.98)%float
                            end) (data options))].
Proof.
  intros Htype. unfold chartData. rewrite Htype.
  unfold getChartConfig. cbn [String.eqb Ascii.eqb Bool.eqb].
  pose proof (ohlcData_aligned (data options) []) as Haligned.
  cbn [app List.length] in Haligned. rewrite Haligned.
  unfold datasets, dataset_data.
  change (get (VObject ?props) ?key) with (lookup key props).
  cbn [lookup String.eqb Ascii.eqb Bool.eqb map].
  rewrite !map_map. reflexivity.
Qed.

Set Warnings "+inexact-float".

Lemma candlestick_data_example :
  map (fun dataset => dataset_data dataset)
    (datasets
       (chartData
          (mkChartOptions
             [value_label 100%float "a";
              mkChartDataPoint 200%float None None (Some 190%float)
                (Some 210%float) (Some 180%float) (Some 205%float)]
             None (Some "candlestick") None None)))
  = [[VNumber 101%float; VNumber 210%float];
     [VNumber 99%float; VNumber 190%float];
     [VNumber 100%float; VNumber 205%float];
     [VNumber 98%float; VNumber 180%float]].
Proof.
  pose proof (candlestick_data
                (mkChartOptions
                   [value_label 100%float "a";
                    mkChartDataPoint 200%float None None (Some 190%float)
                      (Some 210%float) (Some 180%float) (Some 205%float)]
                   None (Some "candlestick") None None)
                eq_refl) as H.
  apply (f_equal (map snd)) in H. rewrite map_map in H. cbn [snd] in H.
  rewrite H. vm_compute. reflexivity.
Defined.

Lemma scatter_points_nth (values : list Num.number) :
  forall i k v,
    nth_error values k = Some v ->
    nth_error (scatter_points values i) k
    = Some (VObject
              [("x", VNumber (PrimFloat.of_uint63 (Uint63.of_Z (Z.of_nat (i + k)))));
               ("y", VNumber v)]).
Proof.
  induction values as [|x rest IH]; intros i k v Hnth.
  - destruct k; discriminate.
  - destruct k as [|k]; cbn [scatter_points nth_error] in *.
    + injection Hnth as ->. now rewrite Nat.add_0_r.
    + rewrite (IH (S i) k v Hnth). now rewrite Nat.add_succ_comm.
Qed.

Lemma scatter_points_length (values : list Num.number) :
  forall i, List.length (scatter_points values i) = List.length values.
Proof.
  induction values as [|x rest IH]; intros i; cbn; [reflexivity | now rewrite IH].
Qed.

(** X19: a scatter chart has no labels; its one dataset has a point per
    value, the value at index [k] being the point [(k, value)]. *)
Theorem scatter_config (values : list Num.number) (labels : list string)
    (yLabel : string) (data : list ChartDataPoint) :
  get (getChartConfig "scatter" values labels yLabel data) "labels" = VUndefined
  /\ exists dataset,
       datasets (getChartConfig "scatter" values labels yLabel data) = [dataset]
       /\ List.length (dataset_data dataset) = List.length values
       /\ forall k v,
            nth_error values k = Some v ->
            nth_error (dataset_data dataset) k
            = Some (VObject
                      [("x", VNumber (PrimFloat.of_uint63
                                        (Uint63.of_Z (Z.of_nat k))));
                       ("y", VNumber v)]).
Proof.
  split; [reflexivity|]. eexists. split; [reflexivity|].
  unfold dataset_data.
  change (get (VObject ?props) ?key) with (lookup key props).
  cbn [lookup String.eqb Ascii.eqb Bool.eqb]. split.
  - apply scatter_points_length.
  - intros k v Hnth. exact (scatter_points_nth values 0 k v Hnth).
Qed.

Lemma scatter_config_example :
  exists dataset,
    datasets (getChartConfig "scatter" [7; 9]%float ["a"; "b"] "Value" [])
    = [dataset]
    /\ dataset_data dataset
       = [VObject [("x", VNumber 0%float); ("y", VNumber 7%float)];
          VObject [("x", VNumber 1%float); ("y", VNumber 9%float)]]
    /\ get (getChartConfig "scatter" [7; 9]%float ["a"; "b"] "Value" []) "labels"
       = VUndefined.
Proof.
  destruct (scatter_config [7; 9]%float ["a"; "b"] "Value" [])
    as (Hlabels & dataset & Hdatasets & _ & _).
  exists dataset. repeat apply conj; try assumption.
  injection Hdatasets as <-. reflexivity.
Defined.


(** *** Amounts *)

Import Amount.

(** A number that is not at least [1e3] is not at least a larger power of
    ten either (NaN is at least nothing). *)
Lemma below_thousand (x : Num.number) :
  PrimFloat.leb 1e3%float x = false ->
  PrimFloat.leb 1e6%float x = false
  /\ PrimFloat.leb 1e9%float x = false
  /\ PrimFloat.leb 1e12%float x = false.
Proof.
  rewrite !leb_spec.
  let v := eval vm_compute in (Prim2SF 1e3%float) in
    change (Prim2SF 1e3%float) with v.
  let v := eval vm_compute in (Prim2SF 1e6%float) in
    change (Prim2SF 1e6%float) with v.
  let v := eval vm_compute in (Prim2SF 1e9%float) in
    change (Prim2SF 1e9%float) with v.
  let v := eval vm_compute in (Prim2SF 1e12%float) in
    change (Prim2SF 1e12%float) with v.
  unfold SFleb, SFcompare.
  destruct (Prim2SF x) as [s|s| |s m e]; try (destruct s); auto;
    try discriminate.
  destruct (Z.compare_spec (-43) e) as [<- | Hlt | Hgt]; try discriminate.
  - intros _. repeat split; reflexivity.
  - intros _.
    assert (H33 : (-33 ?= e)%Z = Gt) by (apply Z.compare_gt_iff; lia).
    assert (H23 : (-23 ?= e)%Z = Gt) by (apply Z.compare_gt_iff; lia).
    assert (H13 : (-13 ?= e)%Z = Gt) by (apply Z.compare_gt_iff; lia).
    now rewrite H33, H23, H13.
Qed.

Lemma not_at_least_thousand (x : Num.number) :
  PrimFloat.ltb x 0%float = true \/ PrimFloat.is_nan x = true
  \/ PrimFloat.ltb x 1e3%float = true ->
  PrimFloat.leb 1e3%float x = false.
Proof.
  unfold PrimFloat.is_nan. rewrite !ltb_spec, leb_spec, eqb_spec.
  let v := eval vm_compute in (Prim2SF 1e3%float) in
    change (Prim2SF 1e3%float) with v.
  let v := eval vm_compute in (Prim2SF 0%float) in
    change (Prim2SF 0%float) with v.
  unfold SFltb, SFleb, SFeqb, SFcompare.
  destruct (Prim2SF x) as [s|s| |s m e]; try (destruct s); cbn [negb];
    intros H; try reflexivity.
  - destruct H as [H | [H | H]]; discriminate.
  - rewrite Z.compare_refl, Pos.compare_cont_refl in H. cbn [negb] in H.
    destruct H as [H | [H | H]]; [discriminate | discriminate |].
    rewrite (Z.compare_antisym e (-43)).
    destruct (e ?= -43)%Z; cbn [CompOpp]; cbn beta iota in H |- *;
      [|reflexivity | discriminate].
    revert H.
    match goal with
    | |- context [Pos.compare_cont Eq ?c m] =>
        pose proof (Pos.compare_cont_antisym m c Eq) as Hopp;
        cbn [CompOpp] in Hopp; rewrite <- Hopp; clear Hopp;
        destruct (Pos.compare_cont Eq m c)
    end; cbn [CompOpp]; intros H;
      [discriminate H | reflexivity | discriminate H].
Qed.

(** X21: an amount that is negative, NaN or below 1000 is printed without
    a suffix, as a dollar sign and the amount with two decimals; so a large
    negative amount is not abbreviated. *)
Theorem formatValue_unabbreviated (value : Num.number) :
  PrimFloat.ltb value 0%float = true \/ PrimFloat.is_nan value = true
  \/ PrimFloat.ltb value 1e3%float = true ->
  formatValue value = ("$" ++ toFixed2 value)%string.
Proof.
  intros Hsmall. apply not_at_least_thousand in Hsmall.
  destruct (below_thousand value Hsmall) as (Hmillion & Hbillion & Htrillion).
  unfold formatValue. now rewrite Htrillion, Hbillion, Hmillion, Hsmall.
Qed.

Lemma formatValue_unabbreviated_example :
  formatValue (-5e12)%float = "$-5000000000000.00"
  /\ formatValue nan = "$NaN"
  /\ formatValue 999.5%float = "$999.50".
Proof.
  repeat apply conj.
  - rewrite (formatValue_unabbreviated (-5e12)%float (or_introl eq_refl)).
    vm_compute. reflexivity.
  - rewrite (formatValue_unabbreviated nan (or_intror (or_introl eq_refl))).
    vm_compute. reflexivity.
  - rewrite (formatValue_unabbreviated 999.5%float
               (or_intror (or_intror eq_refl))).
    vm_compute. reflexivity.
Defined.

(** *** Elements of an array that give nothing *)

(** X22: an element of the array that is [undefined], [null], a boolean or
    itself an array gives no Observation: it is passed over without an
    error. *)
Theorem ignored_elements (Date_parse : string -> JSDate.Date)
    (LocalTZA : Z -> Z) (item : JS.value) (i : nat)
    (result : list ChartDataPoint) :
  match item with
  | VUndefined | VNull | VBoolean _ | VArray _ => True
  | _ => False
  end ->
  array_item Date_parse LocalTZA item i result = result.
Proof.
  destruct item as [| |b|n|s|items|props]; try contradiction; intros _.
  - reflexivity.
  - reflexivity.
  - unfold array_item. cbn [ToBoolean typeof type_name_eqb].
    now rewrite andb_false_r.
  - apply zero_element_skipped; reflexivity.
Qed.

Lemma ignored_elements_example :
  normalize_utc (VArray [VArray [VNumber 1%float; VNumber 2%float]; VNull;
                         VBoolean true; VNumber 3%float])
  = Return [value_label 3%float "Point 4"]
  /\ array_item JSDate.Date_parse_iso JSDate.LocalTZA_utc
       (VArray [VNumber 1%float; VNumber 2%float]) 0 []
     = [].
Proof.
  split; [vm_compute; reflexivity|].
  apply (ignored_elements JSDate.Date_parse_iso JSDate.LocalTZA_utc
           (VArray [VNumber 1%float; VNumber 2%float]) 0 []).
  exact I.
Defined.
